(** * sleep_ema_demo: the sleep-deviation triggered EMA pipeline

    A shallow embedding of [sleep_ema_demo.py] and the properties of its
    normaliser ([nightly_totals]), its trigger rule ([should_trigger]), its
    record acquisition ([fetch_sleep_json]), its survey dispatcher
    ([send_qualtrics_survey]) and its run loop ([run_once]).

    Python floats are IEEE 754 binary64 numbers: they are Rocq's primitive
    floats.  Python ints are [Z].  JSON documents are the values [json.load]
    builds.  Exceptions are the [Raise] results of an error monad; printing,
    file access and HTTP traffic are events appended to a trace. *)

From Stdlib Require Import ZArith List String Ascii Bool Lia Floats Permutation Sorted.
Import ListNotations.

Local Open Scope string_scope.
Local Open Scope list_scope.
Local Open Scope Z_scope.
Set Warnings "-register-all,-inexact-float".

(** ** Exceptions and results *)

Inductive exn : Type :=
| ValueError (msg : string)
| StatisticsError (msg : string)        (* a subclass of ValueError in Python *)
| IndexError
| KeyError (key : string)
| TypeError
| AttributeError
| ZeroDivisionError
| OverflowError
| OSError                               (* open() on a missing or unreadable file *)
| JSONDecodeError
| RequestException                      (* requests: connection error, timeout *)
| HTTPError (status : Z).               (* raise_for_status *)

Inductive result (A : Type) : Type :=
| Ok (a : A)
| Raise (e : exn).
Arguments Ok {A} a.
Arguments Raise {A} e.

Definition rbind {A B} (m : result A) (k : A -> result B) : result B :=
  match m with
  | Ok a => k a
  | Raise e => Raise e
  end.

Notation "'let*' x ':=' m 'in' k" := (rbind m (fun x => k))
  (at level 10, x pattern, m at level 100, k at level 200).
Notation "'let*' ' x ':=' m 'in' k" := (rbind m (fun x => k))
  (at level 10, x strict pattern, m at level 100, k at level 200).

Definition is_ok {A} (r : result A) : bool :=
  match r with Ok _ => true | Raise _ => false end.

(** A list comprehension whose element expression may raise: elements are
    evaluated left to right and the first exception ends the evaluation. *)
Fixpoint comprehension {A B} (f : A -> result B) (l : list A) : result (list B) :=
  match l with
  | [] => Ok []
  | x :: l' =>
      let* y := f x in
      let* ys := comprehension f l' in
      Ok (y :: ys)
  end.

(** ** JSON values, as [json.load] returns them *)

Inductive json : Type :=
| JNull
| JBool (b : bool)
| JInt (z : Z)
| JFloat (f : float)
| JStr (s : string)
| JList (l : list json)
| JDict (kv : list (string * json)).

Definition DUMMY : string := "xxx".

(** [bool(v)] *)
Definition truthy (v : json) : bool :=
  match v with
  | JNull => false
  | JBool b => b
  | JInt z => negb (z =? 0)
  | JFloat f => negb (f =? 0)%float
  | JStr s => negb (s =? "")%string
  | JList l => match l with [] => false | _ => true end
  | JDict kv => match kv with [] => false | _ => true end
  end.

Fixpoint assoc (k : string) (kv : list (string * json)) : option json :=
  match kv with
  | [] => None
  | (k', v) :: kv' => if (k =? k')%string then Some v else assoc k kv'
  end.

(** [isinstance(v, dict)] *)
Definition is_dict (v : json) : bool :=
  match v with JDict _ => true | _ => false end.

(** [d.get(k, default)]; only a dict has the method. *)
Definition py_get (d : json) (k : string) (default : json) : result json :=
  match d with
  | JDict kv => Ok (match assoc k kv with Some v => v | None => default end)
  | _ => Raise AttributeError
  end.

(** [d[k]] *)
Definition py_getitem (d : json) (k : string) : result json :=
  match d with
  | JDict kv => match assoc k kv with Some v => Ok v | None => Raise (KeyError k) end
  | _ => Raise TypeError
  end.

(** [s.startswith(DUMMY)]; only a str has the method. *)
Definition py_startswith (v : json) (p : string) : result bool :=
  match v with
  | JStr s => Ok (String.prefix p s)
  | _ => Raise AttributeError
  end.

(** Iterating a value with [for]: a list yields its items, a dict its keys,
    a str its characters; nothing else is iterable. *)
Fixpoint chars (s : string) : list json :=
  match s with
  | EmptyString => []
  | String c s' => JStr (String c EmptyString) :: chars s'
  end.

Definition py_iter (v : json) : result (list json) :=
  match v with
  | JList l => Ok l
  | JDict kv => Ok (map (fun p => JStr (fst p)) kv)
  | JStr s => Ok (chars s)
  | _ => Raise TypeError
  end.

(** ** Numbers *)

(** Values a Python expression of the pipeline can evaluate to. *)
Inductive pyobj : Type :=
| PBool (b : bool)
| PInt (z : Z)
| PFloat (f : float).

Definition obj_truthy (v : pyobj) : bool :=
  match v with
  | PBool b => b
  | PInt z => negb (z =? 0)
  | PFloat f => negb (f =? 0)%float
  end.

(** [a or b] and [a and b] return one of their operands. *)
Definition py_or (a b : pyobj) : pyobj := if obj_truthy a then a else b.
Definition py_and (a b : pyobj) : pyobj := if obj_truthy a then b else a.

Definition float_truthy (f : float) : bool := negb (f =? 0)%float.

(** [a / b] on floats raises when the divisor is zero. *)
Definition py_fdiv (a b : float) : result float :=
  if (b =? 0)%float then Raise ZeroDivisionError else Ok (a / b)%float.

(** The dyadic number [m * 2^e].  [SFdiv] rounds the quotient of two of them
    once, to the nearest binary64 with ties to even, whatever the size of
    their mantissas. *)
Definition dyadic (m e : Z) : spec_float :=
  match m with
  | Z0 => S754_zero false
  | Zpos p => S754_finite false p e
  | Zneg p => S754_finite true p e
  end.

Definition Z2SF (z : Z) : spec_float := dyadic z 0.

(** [a / b] on ints: the correctly rounded quotient. *)
Definition int_truediv (a b : Z) : result float :=
  if b =? 0 then Raise ZeroDivisionError
  else match SFdiv prec emax (Z2SF a) (Z2SF b) with
       | S754_infinity _ => Raise OverflowError
       | q => Ok (SF2Prim q)
       end.

(** [z > d] for an int and a float compares the exact values. *)
Definition int_gt_float (z : Z) (d : float) : bool :=
  match Prim2SF d with
  | S754_nan => false
  | S754_infinity s => s
  | S754_zero _ => 0 <? z
  | S754_finite s m e =>
      let v := cond_Zopp s (Zpos m) in
      if 0 <=? e then v * 2 ^ e <? z else v <? z * 2 ^ (- e)
  end.

(** [x > d] where [d] is a float. *)
Definition py_gt (x : pyobj) (d : float) : bool :=
  match x with
  | PBool b => int_gt_float (if b then 1 else 0) d
  | PInt z => int_gt_float z d
  | PFloat f => (d <? f)%float
  end.

(** *** statistics.mean on a list of floats

    [statistics._sum] adds the exact ratios of the finite items as fractions;
    the items that are not finite are added as floats, and when there is one
    their sum is the total.  [mean] divides the total by the number of items
    and converts the quotient to a float, which rounds once.  The mean of
    finite floats lies between the least and the greatest of them, so the
    conversion stays in range and has no overflow case. *)

Definition exact_ratio (x : float) : option (Z * Z) :=
  match Prim2SF x with
  | S754_zero _ => Some (0, 0)
  | S754_finite s m e => Some (cond_Zopp s (Zpos m), e)
  | _ => None
  end.

Definition dyadic_add (a b : Z * Z) : Z * Z :=
  let e := Z.min (snd a) (snd b) in
  (fst a * 2 ^ (snd a - e) + fst b * 2 ^ (snd b - e), e).

Definition exact_sum (xs : list float) : Z * Z :=
  fold_left (fun acc x =>
               match exact_ratio x with
               | Some r => dyadic_add acc r
               | None => acc
               end) xs (0, 0).

Definition is_finite (x : float) : bool :=
  match exact_ratio x with Some _ => true | None => false end.

Definition special_sum (xs : list float) : option float :=
  fold_left (fun acc x =>
               if is_finite x then acc
               else match acc with
                    | None => Some (0 + x)%float
                    | Some t => Some (t + x)%float
                    end) xs None.

Definition mean (xs : list float) : result float :=
  match xs with
  | [] => Raise (StatisticsError "mean requires at least one data point")
  | _ =>
      let n := Z.of_nat (List.length xs) in
      match special_sum xs with
      | Some total => Ok (total / SF2Prim (binary_normalize prec emax n 0 false))%float
      | None =>
          let '(m, e) := exact_sum xs in
          Ok (SF2Prim (SFdiv prec emax (dyadic m e) (Z2SF n)))
      end
  end.

(** ** Sequence operations *)

(** [l[-1]] *)
Definition py_last {A} (l : list A) : result A :=
  match rev l with
  | [] => Raise IndexError
  | x :: _ => Ok x
  end.

(** [l[:-1]] *)
Definition py_init {A} (l : list A) : list A := removelast l.

(** [l[-k:]] *)
Definition py_tail {A} (k : nat) (l : list A) : list A :=
  skipn (List.length l - k) l.

(** ** Normaliser *)

Definition qualifies (rec : json) : bool :=
  is_dict rec
  && match py_get rec "type" JNull with
     | Ok (JStr t) => (t =? "long_sleep")%string
     | _ => false
     end
  && match rec with
     | JDict kv => match assoc "total_sleep_duration" kv with Some _ => true | None => false end
     | _ => false
     end.

(** [v / 3600] *)
Definition div3600 (v : json) : result float :=
  match v with
  | JBool b => int_truediv (if b then 1 else 0) 3600
  | JInt z => int_truediv z 3600
  | JFloat f => py_fdiv f 3600
  | _ => Raise TypeError
  end.

Definition nightly_totals (records : json) : result (list float) :=
  let* items := py_iter records in
  let clean := filter qualifies items in
  let* hours := comprehension
                  (fun rec => let* d := py_getitem rec "total_sleep_duration" in div3600 d)
                  clean in
  Ok (py_tail 8 hours).

(** ** Trigger logic *)

Definition should_trigger (hours : list float) (deviation_pct min_hours : float)
  : result pyobj :=
  if (List.length hours <? 8)%nat
  then Raise (ValueError "Need at least 8 nights for deviation rule.")
  else
    let* last := py_last hours in
    let* baseline := mean (py_init hours) in
    let* pct_change :=
      if float_truthy baseline
      then let* q := py_fdiv (abs (last - baseline)) baseline in Ok (PFloat (q * 100))
      else Ok (PInt 0) in
    Ok (py_or (PBool (last <? min_hours)%float)
              (py_and (PBool (py_gt pct_change deviation_pct)) pct_change)).

(** The local variables [last], [baseline] and [pct_change] of
    [should_trigger] once its lines 90 and 91 have run. *)
Definition trigger_locals (hours : list float) : result (float * float * pyobj) :=
  let* last := py_last hours in
  let* baseline := mean (py_init hours) in
  let* pct_change :=
    if float_truthy baseline
    then let* q := py_fdiv (abs (last - baseline)) baseline in Ok (PFloat (q * 100))
    else Ok (PInt 0) in
  Ok (last, baseline, pct_change).

(** ** The environment of a run

    The files, the network and the clock are outside the program; a run reads
    them through [env].  What the program does to the outside is recorded as
    a trace of events. *)

Record response : Type := {
  status_code : Z;
  body : result json          (* r.json() *)
}.

(** One reading of the system clock: the local calendar day as an ordinal,
    and the UTC time rendered by the two formats the dispatcher uses. *)
Record moment : Type := {
  today : Z;
  utc_minute : string;        (* %Y-%m-%d %H:%M *)
  utc_second : string         (* %Y-%m-%dT%H:%M:%SZ *)
}.

Record env : Type := {
  (* None: the path does not exist; Some r: what open + json.load gives *)
  files : string -> option (result json);
  (* the n-th reading of the clock *)
  clock : nat -> moment;
  (* requests.get on the sleep endpoint: bearer token, start and end day *)
  oura : string -> Z -> Z -> result response;
  (* requests.post on a survey endpoint: url, api token, payload *)
  qualtrics : string -> string -> json -> result unit;
  (* list.sort on day keys that are not all strings *)
  sort_other_keys : list (json * json) -> result (list json)
}.

Inductive message : Type :=
| MsgNoConfig                           (* [INFO] No config.json found *)
| MsgOffline                            (* [INFO] Using bundled sample Oura data *)
| MsgProcessing (patient_id : string)   (* >>> Processing ... *)
| MsgLastNight (h : float)              (* Last night sleep (h): round(h, 2) *)
| MsgPrevious (hs : list float)         (* Seven previous nights sleep (h): ... *)
| MsgPctChange (p : pyobj)              (* Percent Change from Previous 7 Days *)
| MsgTrigger                            (* Trigger condition met *)
| MsgNoTrigger                          (* No trigger for this patient. *)
| MsgDryEmail                           (* [DRY-RUN] Would POST email invite *)
| MsgSendEmail                          (* [INFO] Sending email *)
| MsgDrySms                             (* [DRY-RUN] Would POST SMS invite *)
| MsgSendSms.                           (* [INFO] Sending SMS *)

Inductive event : Type :=
| Print (m : message)
| Open (path : string)
| Get (url token : string) (start_date end_date : Z)
| Post (url token : string) (payload : json).

Record state : Type := {
  trace : list event;         (* oldest first *)
  ticks : nat                 (* clock readings so far *)
}.

Definition io (A : Type) : Type := state -> result A * state.

Definition ret {A} (a : A) : io A := fun s => (Ok a, s).

Definition bind {A B} (m : io A) (k : A -> io B) : io B :=
  fun s => match m s with
           | (Ok a, s') => k a s'
           | (Raise e, s') => (Raise e, s')
           end.

Notation "x <- m ;; k" := (bind m (fun x => k))
  (at level 61, m at next level, right associativity).
Notation "m ;;; k" := (bind m (fun _ => k))
  (at level 61, right associativity).

Definition lift {A} (r : result A) : io A := fun s => (r, s).

Definition emit (e : event) : io unit :=
  fun s => (Ok tt, {| trace := trace s ++ [e]; ticks := ticks s |}).

Definition print (m : message) : io unit := emit (Print m).

Definition now (w : env) : io moment :=
  fun s => (Ok (clock w (ticks s)), {| trace := trace s; ticks := S (ticks s) |}).

(** [for x in l: body(x)] *)
Fixpoint for_each {A} (l : list A) (body : A -> io unit) : io unit :=
  match l with
  | [] => ret tt
  | x :: l' => body x ;;; for_each l' body
  end.

Definition start : state := {| trace := []; ticks := 0 |}.

(** ** Config helpers *)

Definition CONFIG_FILE : string := "config.json".
Definition SAMPLE_JSON : string := "example_oura_sleep.json".

Definition load_config (w : env) (path : string) : io json :=
  match files w path with
  | None =>
      print MsgNoConfig ;;;
      ret (JDict [("oura_api_tokens", JDict [("sample", JStr DUMMY)]);
                  ("qualtrics", JDict [("api_token", JStr DUMMY)])])
  | Some r => emit (Open path) ;;; lift r
  end.

(** ** Oura ingest *)

Definition OURA_SLEEP_URL : string := "https://api.ouraring.com/v2/usercollection/sleep".

(** [sorted(data, key=lambda d: d["day"])].  The keys of all items are taken
    first.  String keys are ordered as Python orders str, by code point, and
    the sort is stable; the order Python's list.sort gives other keys is left
    to [sort_other_keys], except that fewer than two items need no
    comparison. *)

Fixpoint insert_by_day (x : string * json) (l : list (string * json))
  : list (string * json) :=
  match l with
  | [] => [x]
  | y :: l' =>
      if (fst x <=? fst y)%string then x :: y :: l' else y :: insert_by_day x l'
  end.

Definition sort_by_day (l : list (string * json)) : list (string * json) :=
  fold_right insert_by_day [] l.

Fixpoint string_keys (l : list (json * json)) : option (list (string * json)) :=
  match l with
  | [] => Some []
  | (JStr s, d) :: l' =>
      match string_keys l' with
      | Some r => Some ((s, d) :: r)
      | None => None
      end
  | _ => None
  end.

Definition sorted_by_day (w : env) (data : json) : result (list json) :=
  let* items := py_iter data in
  let* keys := comprehension (fun d => py_getitem d "day") items in
  let keyed := combine keys items in
  match string_keys keyed with
  | Some l => Ok (map snd (sort_by_day l))
  | None =>
      match items with
      | [] | [_] => Ok items
      | _ => sort_other_keys w keyed
      end
  end.

Definition raise_for_status (r : response) : result unit :=
  if (400 <=? status_code r) && (status_code r <? 600)
  then Raise (HTTPError (status_code r))
  else Ok tt.

(** The text of a str inside an f-string. *)
Definition text (v : json) : string :=
  match v with JStr s => s | _ => "" end.

Definition fetch_sleep_json (w : env) (token : json) (days : Z) : io json :=
  offline <- lift (if negb (truthy token) then Ok true else py_startswith token DUMMY) ;;
  if offline : bool then
    print MsgOffline ;;;
    emit (Open SAMPLE_JSON) ;;;
    doc <- lift (match files w SAMPLE_JSON with Some r => r | None => Raise OSError end) ;;
    lift (py_getitem doc "data")
  else
    m <- now w ;;
    let end_ := today m in
    let start_ := end_ - days in
    emit (Get OURA_SLEEP_URL (text token) start_ end_) ;;;
    r <- lift (oura w (text token) start_ end_) ;;
    lift (raise_for_status r) ;;;
    doc <- lift (body r) ;;
    data <- lift (py_get doc "data" (JList [])) ;;
    l <- lift (sorted_by_day w data) ;;
    ret (JList l).

(** ** Qualtrics *)

Definition QUALTRICS_DIST_URL : string := "https://iad1.qualtrics.com/API/v3/distributions".
Definition QUALTRICS_SMS_URL : string := (QUALTRICS_DIST_URL ++ "/sms")%string.

Definition MESSAGE_TEXT : json :=
  JDict [("messageText", JStr "Please fill out this survey: ${l://SurveyURL}")].

Definition send_qualtrics_survey (w : env) (cfg : json) (patient_id : string) (dry : bool)
  : io unit :=
  qt <- lift (py_get cfg "qualtrics" (JDict [])) ;;
  api_token <- lift (py_get qt "api_token" (JStr DUMMY)) ;;
  dummy <- lift (py_startswith api_token DUMMY) ;;
  let dry := if dummy : bool then true else dry in
  mailing <- lift (py_get qt "mailinglist_id" (JStr "")) ;;
  contact <- lift (py_get qt patient_id (JStr "")) ;;
  t_subject <- now w ;;
  survey <- lift (py_get qt "survey_id" (JStr "")) ;;
  t_email <- now w ;;
  let payload_email :=
    JDict [("message", MESSAGE_TEXT);
           ("recipients", JDict [("mailingListId", mailing); ("contactId", contact)]);
           ("header", JDict [("fromEmail", JStr "xxx@bcm.edu");
                             ("replyToEmail", JStr "xxx@bcm.edu");
                             ("fromName", JStr "Research Team");
                             ("subject", JStr ("Survey – " ++ utc_minute t_subject)%string)]);
           ("surveyLink", JDict [("surveyId", survey); ("type", JStr "Individual")]);
           ("sendDate", JStr (utc_second t_email))] in
  (if dry then print MsgDryEmail
   else
     print MsgSendEmail ;;;
     emit (Post QUALTRICS_DIST_URL (text api_token) payload_email) ;;;
     lift (qualtrics w QUALTRICS_DIST_URL (text api_token) payload_email)) ;;;
  mailing <- lift (py_get qt "mailinglist_id" (JStr "")) ;;
  contact <- lift (py_get qt patient_id (JStr "")) ;;
  survey <- lift (py_get qt "survey_id" (JStr "")) ;;
  t_sms <- now w ;;
  let payload_sms :=
    JDict [("message", MESSAGE_TEXT);
           ("recipients", JDict [("mailingListId", mailing); ("contactId", contact)]);
           ("surveyId", survey);
           ("sendDate", JStr (utc_second t_sms));
           ("method", JStr "Invite");
           ("name", JStr "SMS API Trigger")] in
  if dry then print MsgDrySms
  else
    print MsgSendSms ;;;
    emit (Post QUALTRICS_SMS_URL (text api_token) payload_sms) ;;;
    lift (qualtrics w QUALTRICS_SMS_URL (text api_token) payload_sms).

(** ** Main pipeline *)

(** The body of the loop of [run_once], for one item of the token table. *)
Definition process_patient (w : env) (cfg : json) (dry_flag : bool)
    (deviation min_hours : float) (item : string * json) : io unit :=
  let '(patient_id, token) := item in
  print (MsgProcessing patient_id) ;;;
  recs <- fetch_sleep_json w token 8 ;;
  hours <- lift (nightly_totals recs) ;;
  shown <- lift (py_last hours) ;;
  print (MsgLastNight shown) ;;;
  print (MsgPrevious (py_init hours)) ;;;
  last <- lift (py_last hours) ;;
  baseline <- lift (mean (py_init hours)) ;;
  pct_change <- lift (if float_truthy baseline
                      then let* q := py_fdiv (abs (last - baseline)) baseline in
                           Ok (PFloat (q * 100))
                      else Ok (PInt 0)) ;;
  print (MsgPctChange pct_change) ;;;
  decision <- lift (should_trigger hours deviation min_hours) ;;
  if obj_truthy decision then
    print MsgTrigger ;;;
    send_qualtrics_survey w cfg patient_id dry_flag
  else print MsgNoTrigger.

(** The local variables [last], [baseline] and [pct_change] of [run_once]
    once its lines 170 and 171 have run for a patient. *)
Definition report_locals (hours : list float) : result (float * float * pyobj) :=
  let* last := py_last hours in
  let* baseline := mean (py_init hours) in
  let* pct_change :=
    if float_truthy baseline
    then let* q := py_fdiv (abs (last - baseline)) baseline in Ok (PFloat (q * 100))
    else Ok (PInt 0) in
  Ok (last, baseline, pct_change).

(** [d.items()]; only a dict has the method. *)
Definition py_items (d : json) : result (list (string * json)) :=
  match d with
  | JDict kv => Ok kv
  | _ => Raise AttributeError
  end.

Definition run_once (w : env) (config_path : string) (dry_flag : bool)
    (deviation min_hours : float) : io unit :=
  cfg <- load_config w config_path ;;
  configured <- lift (py_get cfg "oura_api_tokens" (JDict [])) ;;
  let tokens := if truthy configured then configured else JDict [("sample", JStr DUMMY)] in
  items <- lift (py_items tokens) ;;
  for_each items (process_patient w cfg dry_flag deviation min_hours).

(** * Vocabulary of the properties

    The notions the statements below are written with, and the sample
    environments they are tried on. *)

(** ** Trigger *)

(** The insufficient-data error of [should_trigger]. *)
Definition NEED_8 : exn := ValueError "Need at least 8 nights for deviation rule.".

Definition seven (x : float) : list float := [x; x; x; x; x; x; x].

(** ** Records *)

(** The [total_sleep_duration] field of a record, when it is a mapping that
    has one. *)
Definition duration (rec : json) : option json :=
  match rec with
  | JDict kv => assoc "total_sleep_duration" kv
  | _ => None
  end.

(** A qualifying record in the words of the specification: a structured
    mapping whose type is "long_sleep" and that has a duration field. *)
Definition qualifying (rec : json) : Prop :=
  exists kv d,
    rec = JDict kv /\
    assoc "type" kv = Some (JStr "long_sleep") /\
    assoc "total_sleep_duration" kv = Some d.

(** A duration that [/ 3600] turns into hours: a float, a bool, or an int
    whose quotient is in the range of floats. *)
Definition numeric (v : json) : bool :=
  match v with
  | JFloat _ | JBool _ => true
  | JInt z => is_ok (int_truediv z 3600)
  | _ => false
  end.

(** ** Days

    The provider writes a day as a string, an ISO date YYYY-MM-DD.  On such
    strings the order of str is the order of the calendar. *)

Definition by_day (a b : string * json) : Prop := (fst a <=? fst b)%string = true.

(** The day of a record that has one written as a string. *)
Definition day_of (d : json) : option string :=
  match py_getitem d "day" with
  | Ok (JStr s) => Some s
  | _ => None
  end.

Definition dated (d : json) : Prop := exists s, day_of d = Some s.

Definition day_le (a b : json) : Prop :=
  match day_of a, day_of b with
  | Some x, Some y => (x <=? y)%string = true
  | _, _ => False
  end.

Definition digit (n : N) : ascii := ascii_of_N (48 + n mod 10)%N.

Definition pad2 (n : N) : string :=
  String (digit (n / 10)) (String (digit n) "").

Definition pad4 (n : N) : string := (pad2 (n / 100) ++ pad2 (n mod 100))%string.

Definition isoformat (y m d : N) : string :=
  (pad4 y ++ "-" ++ pad2 m ++ "-" ++ pad2 d)%string.

Definition lexico (c1 c2 : comparison) : comparison :=
  match c1 with Eq => c2 | _ => c1 end.

Definition date_compare (a b : N * N * N) : comparison :=
  let '(y1, m1, d1) := a in
  let '(y2, m2, d2) := b in
  lexico (y1 ?= y2)%N (lexico (m1 ?= m2)%N (d1 ?= d2)%N).

(** The record carries the day [dt], written as an ISO date. *)
Definition on_day (rec : json) (dt : N * N * N) : Prop :=
  let '(y, m, d) := dt in
  (y < 10000)%N /\ (m < 100)%N /\ (d < 100)%N /\
  day_of rec = Some (isoformat y m d).

Definition chronological (a b : json) : Prop :=
  exists da db, on_day a da /\ on_day b db /\ date_compare da db <> Gt.

(** ** Traces and states *)

Definition is_post (e : event) : bool :=
  match e with Post _ _ _ => true | _ => false end.

Definition is_get (e : event) : bool :=
  match e with Get _ _ _ _ => true | _ => false end.

(** The state after some more events and clock readings. *)
Definition after (s : state) (events : list event) (readings : nat) : state :=
  {| trace := trace s ++ events; ticks := readings + ticks s |}.

(** ** Credentials *)

(** The api token the dispatcher reads is a placeholder: the configured one,
    or the default when the block or the token is absent. *)
Definition placeholder_api_token (cfg : json) : Prop :=
  exists qt tok,
    py_get cfg "qualtrics" (JDict []) = Ok qt /\
    py_get qt "api_token" (JStr DUMMY) = Ok (JStr tok) /\
    String.prefix DUMMY tok = true.

(** A credential that is absent, empty or a placeholder. *)
Definition placeholder (token : json) : Prop :=
  token = JNull \/ token = JStr "" \/
  exists t, token = JStr t /\ String.prefix DUMMY t = true.

(** A credential that is a real token. *)
Definition real_token (token : json) (t : string) : Prop :=
  token = JStr t /\ t <> "" /\ String.prefix DUMMY t = false.

(** ** Sources of records *)

(** What the bundled sample file gives: [json.load(fh)['data']]. *)
Definition sample_data (w : env) : result json :=
  let* doc := match files w SAMPLE_JSON with Some r => r | None => Raise OSError end in
  py_getitem doc "data".

(** What the sleep provider gives for a token and a window of days. *)
Definition live_data (w : env) (t : string) (start_ end_ : Z) : result json :=
  let* r := oura w t start_ end_ in
  let* _ := raise_for_status r in
  let* doc := body r in
  let* data := py_get doc "data" (JList []) in
  let* l := sorted_by_day w data in
  Ok (JList l).

(** ** Sample environments *)

(** An environment with no file and no network. *)
Definition nowhere : env :=
  {| files := fun _ => None;
     clock := fun n => {| today := 739000; utc_minute := ""; utc_second := "" |};
     oura := fun _ _ _ => Raise RequestException;
     qualtrics := fun _ _ _ => Raise RequestException;
     sort_other_keys := fun _ => Raise TypeError |}.

(** The config [load_config] makes up when there is no file. *)
Definition skeleton : json :=
  JDict [("oura_api_tokens", JDict [("sample", JStr DUMMY)]);
         ("qualtrics", JDict [("api_token", JStr DUMMY)])].

(** An environment made of a config file, a sample file and the records the
    provider holds for each token; posting succeeds. *)
Definition lab (config sample : option json) (held : string -> list json) : env :=
  {| files := fun path =>
       if (path =? CONFIG_FILE)%string then option_map Ok config
       else if (path =? SAMPLE_JSON)%string then option_map Ok sample
       else None;
     clock := fun n => {| today := 739000; utc_minute := "2025-06-01 08:00";
                          utc_second := "2025-06-01T08:00:00Z" |};
     oura := fun t _ _ =>
       Ok {| status_code := 200; body := Ok (JDict [("data", JList (held t))]) |};
     qualtrics := fun _ _ _ => Ok tt;
     sort_other_keys := fun _ => Raise TypeError |}.

Definition night_on (day : string) (seconds : Z) : json :=
  JDict [("day", JStr day); ("type", JStr "long_sleep");
         ("total_sleep_duration", JInt seconds)].

Definition mixed_records : list json :=
  [night_on "2025-06-01" 25200; JNull; night_on "2025-06-02" 27000].

Definition three_nights : list json :=
  [night_on "2025-06-03" 25200; night_on "2025-06-01" 27000; night_on "2025-06-02" 21600].

Definition five_nights : list json :=
  [night_on "2025-06-01" 25200; night_on "2025-06-02" 27000; night_on "2025-06-03" 21600;
   night_on "2025-06-04" 28800; night_on "2025-06-05" 23400].

Definition eight_nights : list json :=
  five_nights ++ [night_on "2025-06-06" 25200; night_on "2025-06-07" 25200;
                  night_on "2025-06-08" 12600].

Definition sample_of (nights : list json) : option json :=
  Some (JDict [("data", JList nights)]).

Definition two_patients : json :=
  JDict [("oura_api_tokens", JDict [("A", JStr "tokA"); ("B", JStr "tokB")])].

Definition held_AB (t : string) : list json :=
  if (t =? "tokA")%string then five_nights else eight_nights.

(** ** Footprints *)

(** Every event a computation adds to the trace satisfies [P]. *)
Definition emits {A} (P : event -> Prop) (m : io A) : Prop :=
  forall s, exists events n, snd (m s) = after s events n /\ Forall P events.

(** The patients a trace shows as taken up, oldest first. *)
Definition processed (t : list event) : list string :=
  flat_map (fun e => match e with Print (MsgProcessing p) => [p] | _ => [] end) t.

Definition not_processing (e : event) : Prop :=
  match e with Print (MsgProcessing _) => False | _ => True end.

Definition no_traffic (e : event) : Prop := is_get e = false /\ is_post e = false.

(** ** Payloads *)

(** The recipients of an invitation: the mailing list of the block and the
    contact the block gives for the patient, each "" when absent. *)
Definition recipients (q : list (string * json)) (patient_id : string) : json :=
  JDict [("mailingListId",
          match assoc "mailinglist_id" q with Some v => v | None => JStr "" end);
         ("contactId",
          match assoc patient_id q with Some v => v | None => JStr "" end)].

(** ** More sample environments *)

(** A provider that refuses the token. *)
Definition refusing : env :=
  {| files := files nowhere; clock := clock nowhere;
     oura := fun _ _ _ => Ok {| status_code := 401; body := Raise JSONDecodeError |};
     qualtrics := qualtrics nowhere; sort_other_keys := sort_other_keys nowhere |}.

(** A provider that answers with an empty mapping. *)
Definition speechless : env :=
  {| files := files nowhere; clock := clock nowhere;
     oura := fun _ _ _ => Ok {| status_code := 200; body := Ok (JDict []) |};
     qualtrics := qualtrics nowhere; sort_other_keys := sort_other_keys nowhere |}.

(** A record of another type, without a day. *)
Definition nap : json := JDict [("type", JStr "rest"); ("total_sleep_duration", JInt 1200)].

(** A provider that returns a record without a day among the nights. *)
Definition careless : env :=
  {| files := files nowhere; clock := clock nowhere;
     oura := fun _ _ _ =>
       Ok {| status_code := 200;
             body := Ok (JDict [("data", JList (five_nights ++ nap :: three_nights))]) |};
     qualtrics := qualtrics nowhere; sort_other_keys := sort_other_keys nowhere |}.

(** * Properties *)

(** ** Sequences *)

Lemma py_last_app {A} (l : list A) (x : A) : py_last (l ++ [x]) = Ok x.
Proof. unfold py_last. rewrite rev_app_distr. reflexivity. Qed.

Lemma py_last_nonempty {A} (l : list A) :
  l <> [] -> exists x, py_last l = Ok x /\ l = py_init l ++ [x].
Proof.
  intros Hl. destruct (exists_last Hl) as [l' [x ->]].
  exists x. rewrite py_last_app. unfold py_init. rewrite removelast_last. auto.
Qed.

Lemma py_init_length {A} (l : list A) : List.length (py_init l) = pred (List.length l).
Proof.
  destruct l as [|a l]; [reflexivity|].
  destruct (@exists_last _ (a :: l)) as [l' [x E]]; [discriminate|].
  rewrite E. unfold py_init. rewrite removelast_last, length_app. simpl. lia.
Qed.

Lemma py_tail_length {A} (k : nat) (l : list A) :
  List.length (py_tail k l) = Nat.min k (List.length l).
Proof. unfold py_tail. rewrite length_skipn. lia. Qed.

Lemma py_tail_short {A} (k : nat) (l : list A) :
  (List.length l <= k)%nat -> py_tail k l = l.
Proof.
  intros H. unfold py_tail. replace (List.length l - k)%nat with 0%nat by lia. reflexivity.
Qed.

Lemma py_tail_suffix {A} (k : nat) (l : list A) :
  exists older, l = older ++ py_tail k l /\ List.length older = (List.length l - k)%nat.
Proof.
  exists (firstn (List.length l - k) l). unfold py_tail. split.
  - symmetry. apply firstn_skipn.
  - rewrite length_firstn. lia.
Qed.

(** ** The mean *)

Lemma mean_total (xs : list float) : xs <> [] -> exists b, mean xs = Ok b.
Proof.
  intros H. destruct xs as [|x xs]; [contradiction|].
  unfold mean. destruct (special_sum (x :: xs)).
  - eexists. reflexivity.
  - destruct (exact_sum (x :: xs)). eexists. reflexivity.
Qed.

Lemma mean_empty : mean [] = Raise (StatisticsError "mean requires at least one data point").
Proof. reflexivity. Qed.

(** ** Trigger logic *)

(** [should_trigger] is its length check followed by its locals and its
    return expression. *)
Lemma should_trigger_locals (hours : list float) (d m : float) :
  should_trigger hours d m =
  if (List.length hours <? 8)%nat then Raise NEED_8
  else let* '(last, _, pct_change) := trigger_locals hours in
       Ok (py_or (PBool (last <? m)%float)
                 (py_and (PBool (py_gt pct_change d)) pct_change)).
Proof.
  unfold should_trigger, trigger_locals, NEED_8.
  destruct (List.length hours <? 8)%nat; [reflexivity|].
  destruct (py_last hours) as [last|e]; [|reflexivity]. cbn [rbind].
  destruct (mean (py_init hours)) as [b|e]; [|reflexivity]. cbn [rbind].
  destruct (float_truthy b); [|reflexivity].
  destruct (py_fdiv (abs (last - b)) b); reflexivity.
Qed.

(** The guard [if baseline] keeps the division away from a zero divisor. *)
Lemma guarded_pct_change (last baseline : float) :
  (if float_truthy baseline
   then let* q := py_fdiv (abs (last - baseline)) baseline in Ok (PFloat (q * 100))
   else Ok (PInt 0))
  = Ok (if (baseline =? 0)%float then PInt 0
        else PFloat (abs (last - baseline) / baseline * 100)).
Proof.
  unfold float_truthy, py_fdiv. destruct (baseline =? 0)%float; reflexivity.
Qed.

Lemma trigger_locals_ok (hours : list float) :
  (2 <= List.length hours)%nat ->
  exists last baseline,
    py_last hours = Ok last /\
    mean (py_init hours) = Ok baseline /\
    trigger_locals hours =
      Ok (last, baseline,
          if (baseline =? 0)%float then PInt 0
          else PFloat (abs (last - baseline) / baseline * 100)).
Proof.
  intros Hlen.
  destruct (@py_last_nonempty _ hours) as [last [Hlast _]].
  { destruct hours; [simpl in Hlen; lia | discriminate]. }
  destruct (mean_total (py_init hours)) as [b Hb].
  { intros E. pose proof (py_init_length hours) as L. rewrite E in L. simpl in L. lia. }
  exists last, b. repeat split; trivial.
  unfold trigger_locals. rewrite Hlast, Hb. cbn [rbind].
  rewrite guarded_pct_change. reflexivity.
Qed.

Lemma truthy_or_and (a b : bool) (p : pyobj) :
  obj_truthy (py_or (PBool a) (py_and (PBool b) p)) = a || (b && obj_truthy p).
Proof. destruct a, b; reflexivity. Qed.

(** A percent change above a threshold that is not negative is not zero. *)
Lemma above_nonneg_is_nonzero (p : pyobj) (d : float) :
  (0 <=? d)%float = true -> py_gt p d = true -> obj_truthy p = true.
Proof.
  intros Hd Hp. rewrite leb_spec in Hd.
  change (Prim2SF 0) with (S754_zero false) in Hd.
  assert (Hint : forall z, int_gt_float z d = true -> negb (z =? 0) = true).
  { intros z Hz. unfold int_gt_float in Hz.
    destruct (Prim2SF d) as [s|s| |s mm e]; try discriminate.
    - apply Z.ltb_lt in Hz. apply negb_true_iff, Z.eqb_neq. lia.
    - destruct s; discriminate.
    - destruct s; [discriminate|]. cbn [cond_Zopp] in Hz.
      apply negb_true_iff, Z.eqb_neq. intros ->.
      destruct (0 <=? e) eqn:He.
      + apply Z.ltb_lt in Hz. apply Z.leb_le in He.
        pose proof (Z.pow_pos_nonneg 2 e ltac:(lia) He). lia.
      + apply Z.ltb_lt in Hz. simpl in Hz. lia. }
  destruct p as [b|z|f]; cbn [py_gt obj_truthy] in *.
  - specialize (Hint _ Hp). destruct b; [reflexivity | discriminate].
  - exact (Hint _ Hp).
  - rewrite ltb_spec in Hp. rewrite eqb_spec.
    change (Prim2SF 0) with (S754_zero false).
    destruct (Prim2SF f) as [s|s| |s mm e]; try reflexivity.
    + destruct (Prim2SF d) as [t|t| |t mm e]; try discriminate; destruct t; discriminate.
    + destruct s; reflexivity.
    + destruct s; reflexivity.
Qed.

(** C1, as the code has it: over eight nights the decision of
    [should_trigger] is true exactly when the last night is below
    [min_hours], or the percent change is above [deviation_pct] and is not
    zero; when [deviation_pct] is not negative the last condition is implied
    and the decision is the plain OR of the two conditions. *)
Theorem should_trigger_decision (hours : list float) (d m : float) :
  List.length hours = 8%nat ->
  exists last baseline pct v,
    trigger_locals hours = Ok (last, baseline, pct) /\
    should_trigger hours d m = Ok v /\
    obj_truthy v = (last <? m)%float || (py_gt pct d && obj_truthy pct) /\
    ((0 <=? d)%float = true ->
     obj_truthy v = (last <? m)%float || py_gt pct d).
Proof.
  intros Hlen.
  destruct (trigger_locals_ok hours) as [last [b [_ [_ Hloc]]]]; [lia|].
  eexists last, b, _, _. split; [exact Hloc|].
  rewrite should_trigger_locals, Hlen, Hloc. cbn [Nat.ltb Nat.leb rbind].
  split; [reflexivity|]. rewrite truthy_or_and. split; [reflexivity|].
  intros Hd. destruct (py_gt _ d) eqn:Hgt; [|reflexivity].
  rewrite (above_nonneg_is_nonzero _ _ Hd Hgt). reflexivity.
Qed.

Lemma should_trigger_decision_witness :
  exists last baseline pct v,
    trigger_locals (seven 7 ++ [9.5%float]) = Ok (last, baseline, pct) /\
    should_trigger (seven 7 ++ [9.5%float]) 25 4 = Ok v /\
    obj_truthy v = (last <? 4)%float || (py_gt pct 25 && obj_truthy pct) /\
    ((0 <=? 25)%float = true ->
     obj_truthy v = (last <? 4)%float || py_gt pct 25).
Proof. apply should_trigger_decision. reflexivity. Defined.

(** C1 as stated fails: with a negative deviation threshold and a last night
    equal to the baseline, the percent change 0 is above the threshold, the
    plain OR holds, and the decision is the falsy percent change. *)
Lemma should_trigger_not_plain_or :
  ~ (forall (hours : list float) (d m : float),
        List.length hours = 8%nat ->
        forall last baseline pct v,
          trigger_locals hours = Ok (last, baseline, pct) ->
          should_trigger hours d m = Ok v ->
          (obj_truthy v = true <->
           (last <? m)%float = true \/ py_gt pct d = true)).
Proof.
  intros H.
  specialize (H (seven 7 ++ [7%float]) (-1)%float 4%float eq_refl
                7%float 7%float (PFloat 0) (PFloat 0) eq_refl eq_refl).
  destruct H as [_ H]. discriminate H. right. reflexivity.
Qed.

Lemma should_trigger_short (hours : list float) (d m : float) :
  (List.length hours < 8)%nat -> should_trigger hours d m = Raise NEED_8.
Proof.
  intros Hlen. rewrite should_trigger_locals.
  apply Nat.ltb_lt in Hlen. rewrite Hlen. reflexivity.
Qed.

Lemma should_trigger_returns (hours : list float) (d m : float) :
  (8 <= List.length hours)%nat -> exists v, should_trigger hours d m = Ok v.
Proof.
  intros Hlen. rewrite should_trigger_locals.
  destruct (trigger_locals_ok hours) as [last [b [_ [_ Hloc]]]]; [lia|].
  apply Nat.ltb_ge in Hlen. rewrite Hlen, Hloc. eexists. reflexivity.
Qed.

(** C3: [should_trigger] raises its insufficient-data error exactly on the
    series of fewer than 8 nights, whatever they hold, also where reading the
    last night or taking the mean would have raised an error of their own;
    on 8 nights or more it returns a decision. *)
Theorem should_trigger_insufficient_data (hours : list float) (d m : float) :
  (should_trigger hours d m = Raise NEED_8 <-> (List.length hours < 8)%nat) /\
  ((8 <= List.length hours)%nat -> exists v, should_trigger hours d m = Ok v) /\
  (forall e, should_trigger hours d m = Raise e -> e = NEED_8).
Proof.
  destruct (Nat.lt_ge_cases (List.length hours) 8) as [Hlen|Hlen].
  - rewrite (should_trigger_short hours d m Hlen).
    split; [tauto|]. split; [lia|]. congruence.
  - destruct (should_trigger_returns hours d m Hlen) as [v ->].
    split; [split; [discriminate | lia]|]. split; [eauto | discriminate].
Qed.

(** On a short series nothing is read from the series: the error is the same
    where [hours[-1]] or the mean of [hours[:-1]] has no value. *)
Lemma should_trigger_short_examples :
  should_trigger [] 25 4 = Raise NEED_8 /\
  py_last (@nil float) = Raise IndexError /\
  should_trigger [7%float] 25 4 = Raise NEED_8 /\
  mean (py_init [7%float]) = Raise (StatisticsError "mean requires at least one data point").
Proof. repeat split. Qed.

(** C8: a last night below [min_hours] triggers, whatever the baseline, the
    percent change and the deviation threshold are. *)
Theorem should_trigger_absolute_floor (hours : list float) (d m last : float) :
  List.length hours = 8%nat ->
  py_last hours = Ok last ->
  (last <? m)%float = true ->
  should_trigger hours d m = Ok (PBool true).
Proof.
  intros Hlen Hlast Hlt.
  destruct (trigger_locals_ok hours) as [last' [b [Hlast' [_ Hloc]]]]; [lia|].
  rewrite Hlast in Hlast'. injection Hlast' as <-.
  rewrite should_trigger_locals, Hlen, Hloc. cbn [Nat.ltb Nat.leb rbind].
  rewrite Hlt. reflexivity.
Qed.

Lemma should_trigger_absolute_floor_witness :
  should_trigger (seven 7 ++ [3.5%float]) 25 4 = Ok (PBool true).
Proof.
  apply (should_trigger_absolute_floor (seven 7 ++ [3.5%float]) 25 4 3.5);
    reflexivity.
Defined.

(** C6, as the code has it: over eight nights [should_trigger] raises no
    division by zero; its percent change is 0 when the baseline mean is zero
    and [|last - baseline| / baseline * 100] when the baseline is anything
    else, a negative mean or a NaN included. *)
Theorem pct_change_guarded (hours : list float) (d m : float) :
  List.length hours = 8%nat ->
  should_trigger hours d m <> Raise ZeroDivisionError /\
  exists last baseline pct,
    py_last hours = Ok last /\
    mean (py_init hours) = Ok baseline /\
    trigger_locals hours = Ok (last, baseline, pct) /\
    ((baseline =? 0)%float = true -> pct = PInt 0) /\
    ((baseline =? 0)%float = false ->
     pct = PFloat (abs (last - baseline) / baseline * 100)).
Proof.
  intros Hlen. split.
  - destruct (should_trigger_returns hours d m) as [v Hv]; [lia|].
    rewrite Hv. discriminate.
  - destruct (trigger_locals_ok hours) as [last [b [Hlast [Hb Hloc]]]]; [lia|].
    exists last, b. eexists.
    split; [exact Hlast|]. split; [exact Hb|]. split; [exact Hloc|].
    split; intros ->; reflexivity.
Qed.

Lemma pct_change_guarded_witness :
  should_trigger (seven 0 ++ [6%float]) 25 4 <> Raise ZeroDivisionError /\
  exists last baseline pct,
    py_last (seven 0 ++ [6%float]) = Ok last /\
    mean (py_init (seven 0 ++ [6%float])) = Ok baseline /\
    trigger_locals (seven 0 ++ [6%float]) = Ok (last, baseline, pct) /\
    ((baseline =? 0)%float = true -> pct = PInt 0) /\
    ((baseline =? 0)%float = false ->
     pct = PFloat (abs (last - baseline) / baseline * 100)).
Proof. apply pct_change_guarded. reflexivity. Defined.

(** C6 as stated fails on a baseline that is not greater than 0 and not
    zero: seven nights of -1 hour and a last night of 1 hour give the percent
    change -200, not 0. *)
Lemma pct_change_negative_baseline :
  ~ (forall (hours : list float),
        List.length hours = 8%nat ->
        forall last baseline pct,
          trigger_locals hours = Ok (last, baseline, pct) ->
          pct = if (0 <? baseline)%float
                then PFloat (abs (last - baseline) / baseline * 100)
                else PInt 0).
Proof.
  intros H.
  specialize (H (seven (-1) ++ [1%float]) eq_refl
                1%float (-1)%float (PFloat (-200)) eq_refl).
  discriminate H.
Qed.

(** ** Normaliser *)

Lemma qualifies_iff (rec : json) : qualifies rec = true <-> qualifying rec.
Proof.
  unfold qualifies, qualifying. split.
  - destruct rec as [| | | | |l|kv]; try discriminate. cbn.
    destruct (assoc "type" kv) as [[| | | |t| |]|] eqn:Ht; try discriminate.
    destruct (String.eqb_spec t "long_sleep") as [->|]; [|discriminate].
    destruct (assoc "total_sleep_duration" kv) as [d|] eqn:Hd; [|discriminate].
    intros _. exists kv, d. auto.
  - intros [kv [d [-> [Ht Hd]]]]. cbn. rewrite Ht, Hd. reflexivity.
Qed.

Lemma numeric_div3600 (v : json) : numeric v = true -> exists h, div3600 v = Ok h.
Proof.
  destruct v as [|b|z|f|s|l|kv]; try discriminate; intros H.
  - destruct b; eexists; reflexivity.
  - cbn [numeric div3600] in *.
    destruct (int_truediv z 3600); [eexists; reflexivity | discriminate].
  - exists (f / 3600)%float. reflexivity.
Qed.

Lemma comprehension_Forall2 {A B} (f : A -> result B) (l : list A) :
  Forall (fun x => exists y, f x = Ok y) l ->
  exists ys, comprehension f l = Ok ys /\ Forall2 (fun x y => f x = Ok y) l ys.
Proof.
  induction 1 as [|x l [y Hy] _ [ys [Hys HF]]].
  - exists []. split; [reflexivity | constructor].
  - exists (y :: ys). cbn. rewrite Hy. cbn. rewrite Hys. cbn.
    split; [reflexivity | constructor; assumption].
Qed.

Lemma Forall2_and_left {A B} (P : A -> B -> Prop) (Q : A -> Prop) l ys :
  Forall2 P l ys -> Forall Q l -> Forall2 (fun x y => Q x /\ P x y) l ys.
Proof.
  induction 1 as [|x y l ys Hxy _ IH]; intros HQ; constructor.
  - inversion HQ; subst. auto.
  - apply IH. inversion HQ; assumption.
Qed.

Lemma comprehension_raises {A B} (f : A -> result B) (l1 l2 : list A) (x : A) (e : exn) :
  Forall (fun x => exists y, f x = Ok y) l1 ->
  f x = Raise e ->
  comprehension f (l1 ++ x :: l2) = Raise e.
Proof.
  induction 1 as [|a l1 [y Hy] _ IH]; intros Hx; cbn.
  - rewrite Hx. reflexivity.
  - rewrite Hy. cbn. rewrite (IH Hx). reflexivity.
Qed.

(** X23: records that do not qualify never reach the division: with or
    without them [nightly_totals] gives the same series or the same error,
    whatever they hold. *)
Lemma nightly_totals_ignores_others (records : list json) :
  nightly_totals (JList records) = nightly_totals (JList (filter qualifies records)).
Proof.
  unfold nightly_totals. cbn [py_iter rbind].
  replace (filter qualifies (filter qualifies records)) with (filter qualifies records);
    [reflexivity|].
  induction records as [|r l IH]; [reflexivity|]. cbn.
  destruct (qualifies r) eqn:Hr; cbn; [rewrite Hr; f_equal|]; exact IH.
Qed.

(** C7, as the code has it: when the duration of every qualifying record is
    a number in range, [nightly_totals] returns the last 8, or all when there
    are fewer, of the durations of the qualifying records divided by 3600, in
    the order of the input; the other records are left out. *)
Theorem nightly_totals_last_8 (records : list json) :
  Forall (fun rec => forall d, qualifies rec = true -> duration rec = Some d ->
                               numeric d = true) records ->
  exists hours older,
    nightly_totals (JList records) = Ok (py_tail 8 hours) /\
    Forall2 (fun rec h => qualifying rec /\
                          exists d, duration rec = Some d /\ div3600 d = Ok h)
            (filter qualifies records) hours /\
    hours = older ++ py_tail 8 hours /\
    List.length (py_tail 8 hours) = Nat.min 8 (List.length hours).
Proof.
  intros Hnum.
  set (f := fun rec => let* d := py_getitem rec "total_sleep_duration" in div3600 d).
  assert (Hok : Forall (fun rec => exists h, f rec = Ok h) (filter qualifies records)).
  { apply Forall_forall. intros rec Hin. apply filter_In in Hin as [Hin Hq].
    rewrite Forall_forall in Hnum. specialize (Hnum rec Hin).
    destruct (proj1 (qualifies_iff rec) Hq) as [kv [d [-> [_ Hd]]]].
    destruct (numeric_div3600 d) as [h Hh]; [apply Hnum; [exact Hq | exact Hd]|].
    exists h. unfold f. cbn. rewrite Hd. exact Hh. }
  destruct (comprehension_Forall2 f _ Hok) as [hours [Hc HF]].
  destruct (py_tail_suffix 8 hours) as [older [Hsuf _]].
  exists hours, older. split; [|split; [|split]].
  - unfold nightly_totals. cbn [py_iter rbind]. fold f. rewrite Hc. reflexivity.
  - assert (Hq : Forall (fun rec => qualifies rec = true) (filter qualifies records)).
    { apply Forall_forall. intros rec Hin. apply filter_In in Hin. tauto. }
    pose proof (Forall2_and_left _ _ _ _ HF Hq) as HF'.
    revert HF'. apply Forall2_impl.
    intros rec h [Hrec Hh]. apply qualifies_iff in Hrec. split; [exact Hrec|].
    destruct Hrec as [kv [d [-> [_ Hd]]]]. exists d. split; [exact Hd|].
    unfold f in Hh. cbn in Hh. rewrite Hd in Hh. exact Hh.
  - exact Hsuf.
  - apply py_tail_length.
Qed.

Lemma nightly_totals_last_8_witness :
  exists hours older,
    nightly_totals (JList mixed_records) = Ok (py_tail 8 hours) /\
    Forall2 (fun rec h => qualifying rec /\
                          exists d, duration rec = Some d /\ div3600 d = Ok h)
            (filter qualifies mixed_records) hours /\
    hours = older ++ py_tail 8 hours /\
    List.length (py_tail 8 hours) = Nat.min 8 (List.length hours).
Proof.
  apply nightly_totals_last_8.
  repeat constructor; cbn; intros d _ E; try discriminate E;
    injection E as <-; reflexivity.
Defined.

(** C7 as stated fails: a qualifying record whose duration is null makes
    [nightly_totals] raise instead of returning a series. *)
Lemma nightly_totals_null_duration :
  ~ (forall records : list json, exists hours, nightly_totals (JList records) = Ok hours).
Proof.
  intros H.
  destruct (H [JDict [("type", JStr "long_sleep"); ("total_sleep_duration", JNull)]])
    as [hours Hh].
  discriminate Hh.
Qed.

(** ** Sorting by day *)

Lemma insert_by_day_perm (x : string * json) (l : list (string * json)) :
  Permutation (x :: l) (insert_by_day x l).
Proof.
  induction l as [|y l IH]; cbn; [reflexivity|].
  destruct (fst x <=? fst y)%string; [reflexivity|].
  rewrite perm_swap. constructor. exact IH.
Qed.

Lemma sort_by_day_perm (l : list (string * json)) : Permutation l (sort_by_day l).
Proof.
  induction l as [|x l IH]; cbn; [constructor|].
  rewrite <- insert_by_day_perm. constructor. exact IH.
Qed.

Lemma insert_by_day_sorted (x : string * json) (l : list (string * json)) :
  Sorted by_day l -> Sorted by_day (insert_by_day x l).
Proof.
  induction 1 as [|y l Hl IH Hy]; cbn.
  - repeat constructor.
  - destruct (fst x <=? fst y)%string eqn:Hxy.
    + constructor; [constructor; assumption|]. constructor. exact Hxy.
    + constructor; [exact IH|].
      assert (Hyx : by_day y x).
      { unfold by_day. destruct (String.leb_total (fst y) (fst x)); congruence. }
      destruct Hy as [|z l Hyz]; cbn.
      * constructor. exact Hyx.
      * destruct (fst x <=? fst z)%string; constructor; assumption.
Qed.

Lemma sort_by_day_sorted (l : list (string * json)) : Sorted by_day (sort_by_day l).
Proof.
  induction l as [|x l IH]; cbn; [constructor|].
  apply insert_by_day_sorted, IH.
Qed.

Lemma leb_refl (s : string) : (s <=? s)%string = true.
Proof. destruct (String.leb_total s s); assumption. Qed.

(** The sort is stable: items of one day keep the order they came in. *)
Lemma insert_by_day_stable (k : string) (x : string * json) (l : list (string * json)) :
  filter (fun y => (fst y =? k)%string) (insert_by_day x l) =
  filter (fun y => (fst y =? k)%string) (x :: l).
Proof.
  induction l as [|y l IH]; [reflexivity|]. cbn [insert_by_day].
  destruct (fst x <=? fst y)%string eqn:Hxy; [reflexivity|].
  cbn [filter] in *. rewrite IH.
  destruct (String.eqb_spec (fst x) k) as [Hx|]; [|reflexivity].
  destruct (String.eqb_spec (fst y) k) as [Hy|]; [|reflexivity].
  rewrite Hx, Hy, leb_refl in Hxy. discriminate.
Qed.

Lemma sort_by_day_stable (k : string) (l : list (string * json)) :
  filter (fun y => (fst y =? k)%string) (sort_by_day l) =
  filter (fun y => (fst y =? k)%string) l.
Proof.
  induction l as [|x l IH]; [reflexivity|]. cbn [sort_by_day fold_right].
  rewrite insert_by_day_stable. cbn [filter]. fold (sort_by_day l). rewrite IH.
  reflexivity.
Qed.

Lemma keyed_dated (items : list json) :
  Forall dated items ->
  exists keys l,
    comprehension (fun d => py_getitem d "day") items = Ok keys /\
    string_keys (combine keys items) = Some l /\
    map snd l = items /\
    Forall (fun p => day_of (snd p) = Some (fst p)) l.
Proof.
  induction 1 as [|d items [s Hs] _ [keys [l [Hk [Hl [Hm HF]]]]]].
  - exists [], []. repeat split. constructor.
  - exists (JStr s :: keys), ((s, d) :: l). cbn.
    unfold day_of in Hs.
    destruct (py_getitem d "day") as [[| | | |s'| |]|] eqn:Hd; try discriminate.
    injection Hs as ->. cbn. rewrite Hk. cbn. rewrite Hl.
    repeat split; [congruence|]. constructor; [|exact HF].
    cbn. unfold day_of. rewrite Hd. reflexivity.
Qed.

Lemma sorted_by_day_dated (w : env) (items : list json) :
  Forall dated items ->
  exists l,
    sorted_by_day w (JList items) = Ok l /\
    Permutation items l /\
    Sorted day_le l /\
    (forall k, filter (fun d => match day_of d with
                                | Some s => (s =? k)%string
                                | None => false
                                end) l
               = filter (fun d => match day_of d with
                                  | Some s => (s =? k)%string
                                  | None => false
                                  end) items).
Proof.
  intros Hd. destruct (keyed_dated items Hd) as [keys [kl [Hk [Hl [Hm HF]]]]].
  exists (map snd (sort_by_day kl)).
  assert (HF' : Forall (fun p => day_of (snd p) = Some (fst p)) (sort_by_day kl)).
  { rewrite Forall_forall in *. intros p Hp. apply HF.
    eapply Permutation_in; [symmetry; apply sort_by_day_perm | exact Hp]. }
  split; [|split; [|split]].
  - unfold sorted_by_day. cbn [py_iter rbind]. rewrite Hk. cbn [rbind].
    rewrite Hl. reflexivity.
  - rewrite <- Hm at 1. apply Permutation_map, sort_by_day_perm.
  - pose proof (sort_by_day_sorted kl) as HS.
    induction HS as [|p l HS IH Hp]; cbn; constructor.
    + apply IH. inversion HF'; assumption.
    + inversion HF' as [|? ? Hp0 Hl0]; subst.
      destruct Hp as [|q l Hpq]; cbn; constructor.
      unfold day_le. inversion Hl0 as [|? ? Hq0 _]; subst.
      rewrite Hp0, Hq0. exact Hpq.
  - intros k. rewrite <- Hm.
    assert (E : forall l, Forall (fun p => day_of (snd p) = Some (fst p)) l ->
                filter (fun d => match day_of d with
                                 | Some s => (s =? k)%string
                                 | None => false
                                 end) (map snd l)
                = map snd (filter (fun y => (fst y =? k)%string) l)).
    { induction 1 as [|p l Hp _ IH]; [reflexivity|]. cbn. rewrite Hp, IH.
      destruct (fst p =? k)%string; reflexivity. }
    rewrite (E _ HF'), (E _ HF), sort_by_day_stable. reflexivity.
Qed.

(** *** Days written as ISO dates *)

Lemma digit_compare (a b : N) :
  Ascii.compare (digit a) (digit b) = (a mod 10 ?= b mod 10)%N.
Proof.
  unfold Ascii.compare, digit.
  pose proof (N.mod_upper_bound a 10 ltac:(discriminate)).
  pose proof (N.mod_upper_bound b 10 ltac:(discriminate)).
  rewrite !N_ascii_embedding by lia.
  destruct (N.compare_spec (a mod 10) (b mod 10)),
           (N.compare_spec (48 + a mod 10) (48 + b mod 10)); try reflexivity; lia.
Qed.

Ltac digits :=
  repeat match goal with
         | |- context [N.compare ?a ?b] => destruct (N.compare_spec a b)
         end;
  cbn [lexico]; try reflexivity;
  exfalso; zify; Z.to_euclidean_division_equations; lia.

Lemma pad2_compare (a b : N) (r1 r2 : string) :
  (a < 100)%N -> (b < 100)%N ->
  String.compare (pad2 a ++ r1) (pad2 b ++ r2)
    = lexico (a ?= b)%N (String.compare r1 r2).
Proof.
  intros. unfold pad2. cbn [append String.compare]. rewrite !digit_compare.
  generalize (String.compare r1 r2). intros c. digits.
Qed.

Lemma pad4_compare (a b : N) (r1 r2 : string) :
  (a < 10000)%N -> (b < 10000)%N ->
  String.compare (pad4 a ++ r1) (pad4 b ++ r2)
    = lexico (a ?= b)%N (String.compare r1 r2).
Proof.
  intros. unfold pad4.
  change ((pad2 (a / 100) ++ pad2 (a mod 100)) ++ r1)%string
    with (pad2 (a / 100) ++ (pad2 (a mod 100) ++ r1))%string.
  change ((pad2 (b / 100) ++ pad2 (b mod 100)) ++ r2)%string
    with (pad2 (b / 100) ++ (pad2 (b mod 100) ++ r2))%string.
  rewrite !pad2_compare by (zify; Z.to_euclidean_division_equations; lia).
  generalize (String.compare r1 r2). intros c. digits.
Qed.

Lemma isoformat_compare (y1 m1 d1 y2 m2 d2 : N) :
  (y1 < 10000)%N -> (m1 < 100)%N -> (d1 < 100)%N ->
  (y2 < 10000)%N -> (m2 < 100)%N -> (d2 < 100)%N ->
  String.compare (isoformat y1 m1 d1) (isoformat y2 m2 d2)
    = date_compare (y1, m1, d1) (y2, m2, d2).
Proof.
  intros. unfold isoformat, date_compare.
  rewrite pad4_compare by assumption. f_equal.
  cbn [append String.compare]. change (Ascii.compare "-" "-") with Eq. cbv iota.
  rewrite pad2_compare by assumption. f_equal.
  cbn [append String.compare]. change (Ascii.compare "-" "-") with Eq. cbv iota.
  unfold pad2. cbn [String.compare]. rewrite !digit_compare. digits.
Qed.

Lemma day_le_chronological (a b : json) (da db : N * N * N) :
  on_day a da -> on_day b db -> day_le a b -> date_compare da db <> Gt.
Proof.
  destruct da as [[y1 m1] d1], db as [[y2 m2] d2].
  intros [Hy1 [Hm1 [Hd1 Ha]]] [Hy2 [Hm2 [Hd2 Hb]]] Hle.
  unfold day_le in Hle. rewrite Ha, Hb in Hle. unfold String.leb in Hle.
  rewrite isoformat_compare in Hle by assumption.
  intros E. rewrite E in Hle. discriminate.
Qed.

Lemma Sorted_chronological (l : list json) :
  Sorted day_le l ->
  Forall (fun rec => exists dt, on_day rec dt) l ->
  Sorted chronological l.
Proof.
  induction 1 as [|a l Hl IH Ha]; intros HF; constructor.
  - apply IH. inversion HF; assumption.
  - inversion HF as [|? ? [da Hda] Hrest]; subst.
    destruct Ha as [|b l Hab]; constructor.
    inversion Hrest as [|? ? [db Hdb] _]; subst.
    exists da, db. repeat split; try assumption.
    exact (day_le_chronological a b da db Hda Hdb Hab).
Qed.

(** ** Traces *)

Lemma after_nothing (s : state) : after s [] 0 = s.
Proof. destruct s. unfold after. cbn. rewrite app_nil_r. reflexivity. Qed.

Lemma after_after (s : state) (e1 e2 : list event) (n1 n2 : nat) :
  after (after s e1 n1) e2 n2 = after s (e1 ++ e2) (n2 + n1).
Proof. unfold after. cbn. rewrite app_assoc, Nat.add_assoc. reflexivity. Qed.

Lemma emit_after (e : event) (s : state) : emit e s = (Ok tt, after s [e] 0).
Proof. reflexivity. Qed.

Lemma now_after (w : env) (s : state) : now w s = (Ok (clock w (ticks s)), after s [] 1).
Proof. unfold now, after. rewrite app_nil_r. reflexivity. Qed.

(** ** Survey dispatcher *)

Lemma placeholder_when_block_absent (kv : list (string * json)) :
  assoc "qualtrics" kv = None -> placeholder_api_token (JDict kv).
Proof.
  intros H. exists (JDict []), DUMMY. cbn. rewrite H. repeat split.
Qed.

Lemma placeholder_when_token_absent (kv q : list (string * json)) :
  assoc "qualtrics" kv = Some (JDict q) ->
  assoc "api_token" q = None ->
  placeholder_api_token (JDict kv).
Proof.
  intros H1 H2. exists (JDict q), DUMMY. cbn. rewrite H1, H2. repeat split.
Qed.

(** C4: with a placeholder api token the dispatcher runs dry whatever the
    caller asks for: it reports the two invitations it would send and posts
    nothing. *)
Theorem send_qualtrics_survey_forced_dry
    (w : env) (cfg : json) (patient_id : string) (dry : bool) (s : state) :
  placeholder_api_token cfg ->
  send_qualtrics_survey w cfg patient_id dry s
    = (Ok tt, after s [Print MsgDryEmail; Print MsgDrySms] 3) /\
  filter is_post (trace (snd (send_qualtrics_survey w cfg patient_id dry s)))
    = filter is_post (trace s).
Proof.
  intros [qt [tok [Hqt [Htok Hpre]]]].
  assert (E : send_qualtrics_survey w cfg patient_id dry s
              = (Ok tt, after s [Print MsgDryEmail; Print MsgDrySms] 3)).
  { unfold send_qualtrics_survey, bind, lift. rewrite Hqt, Htok.
    cbn [py_startswith]. rewrite Hpre.
    destruct qt as [| | | | | |q]; try discriminate Htok.
    unfold after, print, emit. cbn. rewrite <- app_assoc. reflexivity. }
  split; [exact E|]. rewrite E. cbn. rewrite filter_app. cbn. apply app_nil_r.
Qed.

Lemma send_qualtrics_survey_forced_dry_witness :
  send_qualtrics_survey nowhere skeleton "sample" false start
    = (Ok tt, after start [Print MsgDryEmail; Print MsgDrySms] 3) /\
  filter is_post (trace (snd (send_qualtrics_survey nowhere skeleton "sample" false start)))
    = filter is_post (trace start).
Proof.
  apply send_qualtrics_survey_forced_dry.
  exists (JDict [("api_token", JStr DUMMY)]), DUMMY. repeat split.
Defined.

(** With a real token and without the dry flag both invitations are posted. *)
Lemma send_qualtrics_survey_live_example :
  let cfg := JDict [("qualtrics", JDict [("api_token", JStr "k3y")])] in
  let w := {| files := files nowhere; clock := clock nowhere; oura := oura nowhere;
              qualtrics := fun _ _ _ => Ok tt;
              sort_other_keys := sort_other_keys nowhere |} in
  map is_post (trace (snd (send_qualtrics_survey w cfg "p1" false start)))
    = [false; true; false; true] /\
  filter is_post (trace (snd (send_qualtrics_survey w cfg "p1" true start))) = [].
Proof. split; reflexivity. Qed.

(** ** Record acquisition *)

Lemma fetch_offline (w : env) (token : json) (days : Z) (s : state) :
  placeholder token ->
  fetch_sleep_json w token days s
    = (sample_data w, after s [Print MsgOffline; Open SAMPLE_JSON] 0).
Proof.
  intros H.
  assert (E : (if negb (truthy token) then Ok true else py_startswith token DUMMY)
              = Ok true).
  { destruct H as [-> | [-> | [t [-> Ht]]]]; try reflexivity.
    cbn. rewrite Ht. destruct (negb (negb (t =? "")%string)); reflexivity. }
  unfold fetch_sleep_json, bind, lift. rewrite E.
  unfold sample_data, print, emit, after. cbn. rewrite <- app_assoc. cbn.
  destruct (files w SAMPLE_JSON) as [[doc|e]|]; reflexivity.
Qed.

Lemma fetch_live (w : env) (token : json) (t : string) (days : Z) (s : state) :
  real_token token t ->
  let day := today (clock w (ticks s)) in
  fetch_sleep_json w token days s
    = (live_data w t (day - days) day,
       after s [Get OURA_SLEEP_URL t (day - days) day] 1).
Proof.
  intros [-> [Hne Hpre]] day.
  unfold fetch_sleep_json, bind, lift. cbn [truthy py_startswith].
  apply String.eqb_neq in Hne. rewrite Hne, Hpre. cbn [negb].
  unfold live_data, now, emit, after, ret. cbn. fold day.
  destruct (oura w t (day - days) day) as [r|e]; [|reflexivity]. cbn.
  destruct (raise_for_status r) as [[]|e]; [|reflexivity]. cbn.
  destruct (body r) as [doc|e]; [|reflexivity]. cbn.
  destruct (py_get doc "data" (JList [])) as [data|e]; [|reflexivity]. cbn.
  destruct (sorted_by_day w data) as [l|e]; reflexivity.
Qed.

(** Every credential is a placeholder, a real token, or not a credential at
    all: a falsy value of another type reads the sample too, and a truthy one
    has no [startswith]. *)
Lemma fetch_cases (w : env) (token : json) (days : Z) (s : state) :
  (fetch_sleep_json w token days s
     = (sample_data w, after s [Print MsgOffline; Open SAMPLE_JSON] 0)) \/
  (fetch_sleep_json w token days s = (Raise AttributeError, s)) \/
  (exists t, real_token token t).
Proof.
  destruct token as [|b|z|f|t|l|kv].
  - left. apply fetch_offline. left. reflexivity.
  - destruct b; [right; left; reflexivity|].
    left. unfold fetch_sleep_json, bind, lift, sample_data, print, emit, after. cbn.
    rewrite <- app_assoc. destruct (files w SAMPLE_JSON) as [[doc|e]|]; reflexivity.
  - destruct (z =? 0) eqn:Hz.
    + left. unfold fetch_sleep_json, bind, lift, sample_data, print, emit, after. cbn.
      rewrite Hz. cbn. rewrite <- app_assoc.
      destruct (files w SAMPLE_JSON) as [[doc|e]|]; reflexivity.
    + right; left. unfold fetch_sleep_json, bind, lift. cbn. rewrite Hz. reflexivity.
  - destruct (f =? 0)%float eqn:Hf.
    + left. unfold fetch_sleep_json, bind, lift, sample_data, print, emit, after. cbn.
      rewrite Hf. cbn. rewrite <- app_assoc.
      destruct (files w SAMPLE_JSON) as [[doc|e]|]; reflexivity.
    + right; left. unfold fetch_sleep_json, bind, lift. cbn. rewrite Hf. reflexivity.
  - destruct (String.eqb_spec t "") as [->|Hne].
    + left. apply fetch_offline. right; left. reflexivity.
    + destruct (String.prefix DUMMY t) eqn:Hpre.
      * left. apply fetch_offline. right; right. exists t. auto.
      * right; right. exists t. repeat split; assumption.
  - destruct l as [|x l]; [|right; left; reflexivity].
    left. unfold fetch_sleep_json, bind, lift, sample_data, print, emit, after. cbn.
    rewrite <- app_assoc. destruct (files w SAMPLE_JSON) as [[doc|e]|]; reflexivity.
  - destruct kv as [|x kv]; [|right; left; reflexivity].
    left. unfold fetch_sleep_json, bind, lift, sample_data, print, emit, after. cbn.
    rewrite <- app_assoc. destruct (files w SAMPLE_JSON) as [[doc|e]|]; reflexivity.
Qed.

(** C5: a credential that is absent, empty or a placeholder makes
    [fetch_sleep_json] read the bundled sample and send no request; a request
    is sent only for a real token; and the records the provider returns for
    a real token come back ordered by day, records of one day in the order
    received; days written as ISO dates are in the order of the calendar,
    oldest first. *)
Theorem fetch_sleep_json_sources (w : env) (token : json) (days : Z) (s : state) :
  (placeholder token ->
   fetch_sleep_json w token days s
     = (sample_data w, after s [Print MsgOffline; Open SAMPLE_JSON] 0)) /\
  (exists events n,
     snd (fetch_sleep_json w token days s) = after s events n /\
     (existsb is_get events = true -> exists t, real_token token t)) /\
  (forall t resp doc items,
     real_token token t ->
     let day := today (clock w (ticks s)) in
     oura w t (day - days) day = Ok resp ->
     raise_for_status resp = Ok tt ->
     body resp = Ok doc ->
     py_get doc "data" (JList []) = Ok (JList items) ->
     Forall dated items ->
     exists l,
       fetch_sleep_json w token days s
         = (Ok (JList l), after s [Get OURA_SLEEP_URL t (day - days) day] 1) /\
       Permutation items l /\
       Sorted day_le l /\
       (forall k, filter (fun d => match day_of d with
                                   | Some x => (x =? k)%string
                                   | None => false
                                   end) l
                  = filter (fun d => match day_of d with
                                     | Some x => (x =? k)%string
                                     | None => false
                                     end) items) /\
       (Forall (fun rec => exists dt, on_day rec dt) items ->
        Sorted chronological l)).
Proof.
  split; [apply fetch_offline|]. split.
  - destruct (fetch_cases w token days s) as [E | [E | [t Ht]]].
    + eexists _, _. rewrite E. split; [reflexivity|]. discriminate.
    + exists [], 0%nat. rewrite E, after_nothing. split; [reflexivity|]. discriminate.
    + eexists _, _. rewrite (fetch_live w token t days s Ht).
      split; [reflexivity|]. intros _. exists t. exact Ht.
  - intros t resp doc items Ht day Hr Hs Hb Hd Hi.
    destruct (sorted_by_day_dated w items Hi) as [l [Hl [Hp [Hso Hst]]]].
    exists l. rewrite (fetch_live w token t days s Ht). fold day.
    unfold live_data. rewrite Hr. cbn [rbind]. rewrite Hs. cbn [rbind].
    rewrite Hb. cbn [rbind]. rewrite Hd. cbn [rbind]. rewrite Hl.
    split; [reflexivity|]. split; [exact Hp|]. split; [exact Hso|].
    split; [exact Hst|]. intros Hiso. apply Sorted_chronological; [exact Hso|].
    rewrite Forall_forall in *. intros rec Hin. apply Hiso.
    eapply Permutation_in; [symmetry; exact Hp | exact Hin].
Qed.

Lemma fetch_sleep_json_sources_witness :
  fetch_sleep_json (lab None None (fun _ => three_nights)) (JStr "xxx") 8 start
    = (Raise OSError, after start [Print MsgOffline; Open SAMPLE_JSON] 0) /\
  exists l,
    fetch_sleep_json (lab None None (fun _ => three_nights)) (JStr "t0k") 8 start
      = (Ok (JList l), after start [Get OURA_SLEEP_URL "t0k" (739000 - 8) 739000] 1) /\
    Permutation three_nights l /\
    Sorted chronological l.
Proof.
  pose proof (fetch_sleep_json_sources (lab None None (fun _ => three_nights))) as H.
  split.
  - apply (proj1 (H (JStr "xxx") 8 start)). right; right. exists "xxx". split; reflexivity.
  - destruct (proj2 (proj2 (H (JStr "t0k") 8 start)) "t0k"
                {| status_code := 200; body := Ok (JDict [("data", JList three_nights)]) |}
                (JDict [("data", JList three_nights)]) three_nights)
      as [l [E [P [_ [_ C]]]]]; try reflexivity.
    + repeat split. discriminate.
    + repeat constructor; eexists; reflexivity.
    + exists l. split; [exact E|]. split; [exact P|]. apply C.
      repeat constructor;
        [exists (2025, 6, 3)%N | exists (2025, 6, 1)%N | exists (2025, 6, 2)%N];
        repeat split.
Defined.

(** ** The per-patient pipeline *)

(** The steps of the loop body: acquisition, normalisation, the report of the
    last night and of the previous nights, the locals of the report, the
    report of the percent change, the decision, the dispatch. *)
Lemma process_patient_steps (w : env) (cfg : json) (dry : bool) (d m : float)
    (patient_id : string) (token : json) (s : state) :
  process_patient w cfg dry d m (patient_id, token) s =
  match fetch_sleep_json w token 8 (after s [Print (MsgProcessing patient_id)] 0) with
  | (Raise e, s1) => (Raise e, s1)
  | (Ok recs, s1) =>
      match nightly_totals recs with
      | Raise e => (Raise e, s1)
      | Ok hours =>
          match py_last hours with
          | Raise e => (Raise e, s1)
          | Ok shown =>
              let s2 := after s1 [Print (MsgLastNight shown);
                                  Print (MsgPrevious (py_init hours))] 0 in
              match report_locals hours with
              | Raise e => (Raise e, s2)
              | Ok (_, _, pct_change) =>
                  let s3 := after s2 [Print (MsgPctChange pct_change)] 0 in
                  match should_trigger hours d m with
                  | Raise e => (Raise e, s3)
                  | Ok decision =>
                      if obj_truthy decision
                      then send_qualtrics_survey w cfg patient_id dry
                             (after s3 [Print MsgTrigger] 0)
                      else (Ok tt, after s3 [Print MsgNoTrigger] 0)
                  end
              end
          end
      end
  end.
Proof.
  unfold process_patient, bind, lift, print. rewrite emit_after.
  destruct (fetch_sleep_json w token 8 _) as [[recs|e] s1]; [|reflexivity].
  destruct (nightly_totals recs) as [hours|e]; [|reflexivity].
  unfold report_locals.
  destruct (py_last hours) as [shown|e]; [|reflexivity].
  rewrite !emit_after, after_after. cbn [rbind app Nat.add].
  destruct (mean (py_init hours)) as [b|e]; [|reflexivity]. cbn [rbind].
  rewrite guarded_pct_change. cbn [rbind]. rewrite emit_after.
  destruct (should_trigger hours d m) as [v|e]; [|reflexivity].
  destruct (obj_truthy v); rewrite emit_after; reflexivity.
Qed.

(** C9, as the code has it: after a normalisation that leaves fewer than 8
    nights, the pipeline of a patient ends as follows.  No night: an index
    error on reading the last night, before any metric is reported.  One
    night: the error of the mean of no data, after the last night and the
    empty list of previous nights are reported and before the percent change
    is.  Two to seven nights: the three metrics are reported, then the
    insufficient-data error of [should_trigger] is raised. *)
Theorem process_patient_short_series (w : env) (cfg : json) (dry : bool) (d m : float)
    (patient_id : string) (token : json) (s s1 : state) (recs : json)
    (hours : list float) :
  fetch_sleep_json w token 8 (after s [Print (MsgProcessing patient_id)] 0)
    = (Ok recs, s1) ->
  nightly_totals recs = Ok hours ->
  (List.length hours < 8)%nat ->
  match hours with
  | [] =>
      process_patient w cfg dry d m (patient_id, token) s = (Raise IndexError, s1)
  | [h] =>
      process_patient w cfg dry d m (patient_id, token) s
        = (Raise (StatisticsError "mean requires at least one data point"),
           after s1 [Print (MsgLastNight h); Print (MsgPrevious [])] 0)
  | _ =>
      exists last baseline pct,
        report_locals hours = Ok (last, baseline, pct) /\
        process_patient w cfg dry d m (patient_id, token) s
          = (Raise NEED_8,
             after s1 [Print (MsgLastNight last); Print (MsgPrevious (py_init hours));
                       Print (MsgPctChange pct)] 0)
  end.
Proof.
  intros Hf Hn Hlen. rewrite process_patient_steps, Hf, Hn.
  destruct hours as [|h [|h' hours]]; [reflexivity | reflexivity |].
  destruct (trigger_locals_ok (h :: h' :: hours)) as [last [b [Hlast [_ Hloc]]]];
    [cbn; lia|].
  eexists last, b, _. split; [exact Hloc|].
  rewrite Hlast. change (report_locals (h :: h' :: hours)) with
    (trigger_locals (h :: h' :: hours)). rewrite Hloc.
  rewrite (should_trigger_short (h :: h' :: hours) d m Hlen). cbn zeta.
  rewrite after_after. reflexivity.
Qed.

Lemma process_patient_short_series_witness :
  exists last baseline pct,
    report_locals [7; 7.5; 6; 8; 6.5]%float = Ok (last, baseline, pct) /\
    process_patient (lab None (sample_of five_nights) (fun _ => [])) skeleton false 25 4
                    ("sample", JStr DUMMY) start
      = (Raise NEED_8,
         after (after start [Print (MsgProcessing "sample"); Print MsgOffline;
                             Open SAMPLE_JSON] 0)
               [Print (MsgLastNight last); Print (MsgPrevious [7; 7.5; 6; 8]%float);
                Print (MsgPctChange pct)] 0).
Proof.
  exact (process_patient_short_series
           (lab None (sample_of five_nights) (fun _ => [])) skeleton false 25 4
           "sample" (JStr DUMMY) start
           (after start [Print (MsgProcessing "sample"); Print MsgOffline;
                         Open SAMPLE_JSON] 0)
           (JList five_nights) [7; 7.5; 6; 8; 6.5]%float
           eq_refl eq_refl ltac:(cbn; lia)).
Defined.

(** C9 as stated fails on a series of one night: the pipeline ends with the
    error of the mean of no data, raised while the report is computed, and
    not with the insufficient-data error. *)
Lemma process_patient_single_night :
  ~ (forall (w : env) (cfg : json) (dry : bool) (d m : float) (patient_id : string)
            (token : json) (s s1 : state) (recs : json) (hours : list float),
        fetch_sleep_json w token 8 (after s [Print (MsgProcessing patient_id)] 0)
          = (Ok recs, s1) ->
        nightly_totals recs = Ok hours ->
        (1 <= List.length hours < 8)%nat ->
        fst (process_patient w cfg dry d m (patient_id, token) s) = Raise NEED_8).
Proof.
  intros H.
  specialize (H (lab None (sample_of [night_on "2025-06-01" 25200]) (fun _ => []))
                skeleton false 25%float 4%float "sample" (JStr DUMMY) start
                _ _ [7%float] eq_refl eq_refl ltac:(cbn; lia)).
  discriminate H.
Qed.

(** ** The run loop *)

Lemma for_each_stops {A} (body : A -> io unit) (before later : list A) (x : A)
    (s s1 s2 : state) (e : exn) :
  for_each before body s = (Ok tt, s1) ->
  body x s1 = (Raise e, s2) ->
  for_each (before ++ x :: later) body s = (Raise e, s2).
Proof.
  revert s. induction before as [|y before IH]; intros s Hb Hx; cbn in *.
  - injection Hb as <-. unfold bind. rewrite Hx. reflexivity.
  - unfold bind in *. destruct (body y s) as [[[]|e'] s'].
    + apply IH; assumption.
    + discriminate Hb.
Qed.

(** C2, as the code has it: [run_once] has no handler around the pipeline of
    a patient.  When the patients before one are processed and the
    processing of that one raises an error, [run_once] ends with this error
    in the state the failure left: nothing is recorded and no later patient
    is processed. *)
Theorem run_once_stops_at_first_error (w : env) (config_path : string) (dry : bool)
    (d m : float) (cfg : json) (before later : list (string * json))
    (x : string * json) (s s0 s1 s2 : state) (e : exn) :
  load_config w config_path s = (Ok cfg, s0) ->
  py_get cfg "oura_api_tokens" (JDict []) = Ok (JDict (before ++ x :: later)) ->
  for_each before (process_patient w cfg dry d m) s0 = (Ok tt, s1) ->
  process_patient w cfg dry d m x s1 = (Raise e, s2) ->
  run_once w config_path dry d m s = (Raise e, s2).
Proof.
  intros Hc Ht Hb Hx. unfold run_once, bind, lift. rewrite Hc, Ht.
  replace (truthy (JDict (before ++ x :: later))) with true
    by (destruct before; reflexivity).
  cbn [py_items]. eapply for_each_stops; eassumption.
Qed.

Lemma run_once_stops_at_first_error_witness :
  run_once (lab (Some two_patients) None held_AB) CONFIG_FILE false 25 4 start
    = (Raise NEED_8,
       snd (process_patient (lab (Some two_patients) None held_AB) two_patients false 25 4
                            ("A", JStr "tokA") (after start [Open CONFIG_FILE] 0))).
Proof.
  apply (run_once_stops_at_first_error
           (lab (Some two_patients) None held_AB) CONFIG_FILE false 25 4
           two_patients [] [("B", JStr "tokB")] ("A", JStr "tokA")
           start (after start [Open CONFIG_FILE] 0) (after start [Open CONFIG_FILE] 0));
    reflexivity.
Defined.

(** C2 as stated fails: with two configured patients of which the first has
    five nights of data, the run raises the error of the first and the
    second, who has eight nights, is never processed. *)
Lemma run_once_no_isolation :
  ~ (forall (w : env) (config_path : string) (dry : bool) (d m : float)
            (cfg : json) (s0 : state) (kv : list (string * json)),
        load_config w config_path start = (Ok cfg, s0) ->
        py_get cfg "oura_api_tokens" (JDict []) = Ok (JDict kv) ->
        forall patient_id token,
          In (patient_id, token) kv ->
          In (Print (MsgProcessing patient_id))
             (trace (snd (run_once w config_path dry d m start)))).
Proof.
  intros H.
  specialize (H (lab (Some two_patients) None held_AB) CONFIG_FILE false 25%float 4%float
                _ _ _ eq_refl eq_refl "B" (JStr "tokB") (or_intror (or_introl eq_refl))).
  vm_compute in H.
  repeat (destruct H as [H|H]; [discriminate H|]). exact H.
Qed.

(** The second patient alone is processed to the end. *)
Lemma run_once_second_alone :
  let cfg := JDict [("oura_api_tokens", JDict [("B", JStr "tokB")])] in
  fst (run_once (lab (Some cfg) None held_AB) CONFIG_FILE false 25 4 start) = Ok tt.
Proof. reflexivity. Qed.

(** ** A whole patient *)

(** C10: for a patient with eight nights, the last night and the percent
    change that [run_once] works out and prints for its report, and the
    baseline mean it takes them from, are those [should_trigger] works out
    on the same series: the value [should_trigger] returns is its return
    expression at the printed last night and percent change, and the dispatch
    follows that value. *)
Theorem report_matches_trigger (w : env) (cfg : json) (dry : bool) (d m : float)
    (patient_id : string) (token : json) (s s1 : state) (recs : json)
    (hours : list float) :
  fetch_sleep_json w token 8 (after s [Print (MsgProcessing patient_id)] 0)
    = (Ok recs, s1) ->
  nightly_totals recs = Ok hours ->
  List.length hours = 8%nat ->
  exists last baseline pct,
    py_last hours = Ok last /\
    mean (py_init hours) = Ok baseline /\
    report_locals hours = Ok (last, baseline, pct) /\
    trigger_locals hours = Ok (last, baseline, pct) /\
    should_trigger hours d m
      = Ok (py_or (PBool (last <? m)%float) (py_and (PBool (py_gt pct d)) pct)) /\
    process_patient w cfg dry d m (patient_id, token) s
      = let s3 := after s1 [Print (MsgLastNight last);
                            Print (MsgPrevious (py_init hours));
                            Print (MsgPctChange pct)] 0 in
        if obj_truthy (py_or (PBool (last <? m)%float)
                             (py_and (PBool (py_gt pct d)) pct))
        then send_qualtrics_survey w cfg patient_id dry (after s3 [Print MsgTrigger] 0)
        else (Ok tt, after s3 [Print MsgNoTrigger] 0).
Proof.
  intros Hf Hn Hlen.
  destruct (trigger_locals_ok hours) as [last [b [Hlast [Hb Hloc]]]]; [lia|].
  assert (Hv : should_trigger hours d m
               = Ok (py_or (PBool (last <? m)%float)
                           (py_and (PBool (py_gt
                              (if (b =? 0)%float then PInt 0
                               else PFloat (abs (last - b) / b * 100)) d))
                              (if (b =? 0)%float then PInt 0
                               else PFloat (abs (last - b) / b * 100))))).
  { rewrite should_trigger_locals, Hlen, Hloc. reflexivity. }
  eexists last, b, _.
  split; [exact Hlast|]. split; [exact Hb|].
  split; [unfold report_locals; exact Hloc|]. split; [exact Hloc|].
  split; [exact Hv|].
  rewrite process_patient_steps, Hf, Hn, Hlast.
  change (report_locals hours) with (trigger_locals hours). rewrite Hloc, Hv.
  cbn zeta. rewrite !after_after. reflexivity.
Qed.

Lemma report_matches_trigger_witness :
  exists last baseline pct,
    py_last [7; 7.5; 6; 8; 6.5; 7; 7; 3.5]%float = Ok last /\
    mean (py_init [7; 7.5; 6; 8; 6.5; 7; 7; 3.5]%float) = Ok baseline /\
    report_locals [7; 7.5; 6; 8; 6.5; 7; 7; 3.5]%float = Ok (last, baseline, pct) /\
    trigger_locals [7; 7.5; 6; 8; 6.5; 7; 7; 3.5]%float = Ok (last, baseline, pct) /\
    should_trigger [7; 7.5; 6; 8; 6.5; 7; 7; 3.5]%float 25 4
      = Ok (py_or (PBool (last <? 4)%float) (py_and (PBool (py_gt pct 25)) pct)) /\
    process_patient (lab None (sample_of eight_nights) (fun _ => [])) skeleton false 25 4
                    ("sample", JStr DUMMY) start
      = let s3 := after (after start [Print (MsgProcessing "sample"); Print MsgOffline;
                                      Open SAMPLE_JSON] 0)
                        [Print (MsgLastNight last);
                         Print (MsgPrevious (py_init [7; 7.5; 6; 8; 6.5; 7; 7; 3.5]%float));
                         Print (MsgPctChange pct)] 0 in
        if obj_truthy (py_or (PBool (last <? 4)%float)
                             (py_and (PBool (py_gt pct 25)) pct))
        then send_qualtrics_survey (lab None (sample_of eight_nights) (fun _ => []))
               skeleton "sample" false (after s3 [Print MsgTrigger] 0)
        else (Ok tt, after s3 [Print MsgNoTrigger] 0).
Proof.
  exact (report_matches_trigger
           (lab None (sample_of eight_nights) (fun _ => [])) skeleton false 25 4
           "sample" (JStr DUMMY) start
           (after start [Print (MsgProcessing "sample"); Print MsgOffline;
                         Open SAMPLE_JSON] 0)
           (JList eight_nights) [7; 7.5; 6; 8; 6.5; 7; 7; 3.5]%float
           eq_refl eq_refl eq_refl).
Defined.

(** X22: with eight nights the pipeline reports the last night, the seven
    before it and the percent change of [should_trigger], and then follows
    its decision: it hands the patient to the dispatcher when the decision is
    truthy and otherwise reports that there is no trigger and ends. *)
Lemma process_patient_eight_nights (w : env) (cfg : json) (dry : bool) (d m : float)
    (patient_id : string) (token : json) (s s1 : state) (recs : json)
    (hours : list float) :
  fetch_sleep_json w token 8 (after s [Print (MsgProcessing patient_id)] 0)
    = (Ok recs, s1) ->
  nightly_totals recs = Ok hours ->
  List.length hours = 8%nat ->
  exists last baseline pct v,
    trigger_locals hours = Ok (last, baseline, pct) /\
    should_trigger hours d m = Ok v /\
    process_patient w cfg dry d m (patient_id, token) s
      = let s3 := after s1 [Print (MsgLastNight last);
                            Print (MsgPrevious (py_init hours));
                            Print (MsgPctChange pct)] 0 in
        if obj_truthy v
        then send_qualtrics_survey w cfg patient_id dry (after s3 [Print MsgTrigger] 0)
        else (Ok tt, after s3 [Print MsgNoTrigger] 0).
Proof.
  intros Hf Hn Hlen.
  destruct (trigger_locals_ok hours) as [last [b [Hlast [_ Hloc]]]]; [lia|].
  destruct (should_trigger_returns hours d m) as [v Hv]; [lia|].
  eexists last, b, _, v. split; [exact Hloc|]. split; [exact Hv|].
  rewrite process_patient_steps, Hf, Hn, Hlast.
  change (report_locals hours) with (trigger_locals hours). rewrite Hloc, Hv.
  cbn zeta. rewrite !after_after. reflexivity.
Qed.

(** The scenarios of the specification: the absolute floor, the relative
    deviation of about 35.7 percent, no trigger, and five qualifying nights. *)
Lemma scenarios :
  should_trigger (seven 7 ++ [3.5%float]) 25 4 = Ok (PBool true) /\
  match should_trigger (seven 7 ++ [9.5%float]) 25 4 with
  | Ok (PFloat p) => (35.7 <? p)%float && (p <? 35.8)%float
  | _ => false
  end = true /\
  should_trigger (seven 7 ++ [7.2%float]) 25 4 = Ok (PBool false) /\
  (exists hours, nightly_totals (JList (JNull :: five_nights)) = Ok hours /\
                 List.length hours = 5%nat /\
                 should_trigger hours 25 4 = Raise NEED_8).
Proof.
  split; [reflexivity|]. split; [vm_compute; reflexivity|].
  split; [reflexivity|]. eexists. repeat split.
Qed.

(** ** More of the normaliser *)

(** Of nine qualifying nights the oldest is dropped. *)
Lemma nightly_totals_nine_nights :
  nightly_totals (JList (night_on "2025-05-31" 3600 :: eight_nights))
    = Ok [7; 7.5; 6; 8; 6.5; 7; 7; 3.5]%float.
Proof. reflexivity. Qed.

(** An int duration beyond the range of floats raises, like a duration that
    is not a number. *)
Lemma nightly_totals_huge_duration :
  nightly_totals (JList [night_on "2025-06-01" (2 ^ 1100)]) = Raise OverflowError /\
  nightly_totals (JList [night_on "2025-06-01" (2 ^ 1024)])
    = Ok [SF2Prim (SFdiv prec emax (Z2SF (2 ^ 1024)) (Z2SF 3600))].
Proof. split; vm_compute; reflexivity. Qed.

(** * Further properties of the code *)

(** ** The normaliser on any input *)

Lemma comprehension_length {A B} (f : A -> result B) (l : list A) (ys : list B) :
  comprehension f l = Ok ys -> List.length ys = List.length l.
Proof.
  revert ys. induction l as [|x l IH]; cbn; intros ys H.
  - injection H as <-. reflexivity.
  - destruct (f x) as [y|e]; [|discriminate]. cbn in H.
    destruct (comprehension f l) as [ys'|e]; [|discriminate]. cbn in H.
    injection H as <-. cbn. f_equal. apply IH. reflexivity.
Qed.

Lemma comprehension_culprit {A B} (f : A -> result B) (l : list A) (e : exn) :
  comprehension f l = Raise e -> exists x, In x l /\ f x = Raise e.
Proof.
  induction l as [|x l IH]; cbn; [discriminate|].
  destruct (f x) as [y|e'] eqn:Hx; cbn.
  - destruct (comprehension f l) as [ys|e']; [discriminate|]. cbn.
    intros H. injection H as ->.
    destruct (IH eq_refl) as [x' [Hin Hx']]. exists x'. auto.
  - intros H. injection H as ->. exists x. auto.
Qed.

(** X1: when [nightly_totals] returns, the series has as many entries as
    there are qualifying records, up to 8: never more than 8, and no
    padding. *)
Theorem nightly_totals_length (records : list json) (hours : list float) :
  nightly_totals (JList records) = Ok hours ->
  List.length hours = Nat.min 8 (List.length (filter qualifies records)).
Proof.
  unfold nightly_totals. cbn [py_iter rbind].
  destruct (comprehension _ (filter qualifies records)) as [hs|e] eqn:Hc;
    [|discriminate].
  cbn [rbind]. intros H. injection H as <-.
  rewrite py_tail_length, (comprehension_length _ _ _ Hc). reflexivity.
Qed.

Lemma nightly_totals_length_witness :
  List.length [7; 7.5; 6; 8; 6.5]%float
    = Nat.min 8 (List.length (filter qualifies (JNull :: five_nights))).
Proof.
  apply (nightly_totals_length (JNull :: five_nights) [7; 7.5; 6; 8; 6.5]%float).
  reflexivity.
Defined.

(** X2: the only errors of [nightly_totals] are a type error (an input that
    cannot be iterated, or a qualifying record whose duration is not a
    number) and an overflow error (an int duration too large for a float);
    it raises no key error and no division by zero. *)
Theorem nightly_totals_errors (records : json) (e : exn) :
  nightly_totals records = Raise e -> e = TypeError \/ e = OverflowError.
Proof.
  unfold nightly_totals.
  destruct (py_iter records) as [items|e'] eqn:Hi.
  - cbn [rbind].
    destruct (comprehension _ (filter qualifies items)) as [hs|e'] eqn:Hc;
      [discriminate|].
    cbn [rbind]. intros H. injection H as ->.
    apply comprehension_culprit in Hc as [rec [Hin Hrec]].
    apply filter_In in Hin as [_ Hq].
    apply qualifies_iff in Hq as [kv [d [-> [_ Hd]]]].
    cbn in Hrec. rewrite Hd in Hrec. cbn [rbind] in Hrec.
    assert (Hint : forall z, int_truediv z 3600 = Raise e -> e = OverflowError).
    { intros z. unfold int_truediv. cbn [Z.eqb].
      destruct (SFdiv prec emax (Z2SF z) (Z2SF 3600)); try discriminate.
      intros H. injection H as <-. reflexivity. }
    destruct d as [|b|z|f|s|l|q]; cbn [div3600] in Hrec;
      try (left; congruence).
    + right. eapply Hint. exact Hrec.
    + right. eapply Hint. exact Hrec.
    + discriminate Hrec.
  - cbn [rbind]. intros H. injection H as ->.
    destruct records; cbn in Hi; try discriminate; left; congruence.
Qed.

Lemma nightly_totals_errors_witness :
  TypeError = TypeError \/ TypeError = OverflowError.
Proof.
  apply (nightly_totals_errors
           (JList [JDict [("type", JStr "long_sleep");
                          ("total_sleep_duration", JStr "7h")]])).
  reflexivity.
Defined.

(** X3: the division runs over every qualifying record before the last 8
    are kept: a qualifying record whose duration cannot be divided makes
    [nightly_totals] raise however many good records follow it. *)
Theorem nightly_totals_old_record_raises
    (older newer : list json) (rec d : json) (e : exn) :
  Forall (fun r => qualifies r = true ->
                   exists v h, duration r = Some v /\ div3600 v = Ok h) older ->
  qualifies rec = true ->
  duration rec = Some d ->
  div3600 d = Raise e ->
  nightly_totals (JList (older ++ rec :: newer)) = Raise e.
Proof.
  intros Hold Hq Hd He. unfold nightly_totals. cbn [py_iter rbind].
  rewrite filter_app. cbn [filter]. rewrite Hq.
  rewrite (comprehension_raises _ _ _ rec e); [reflexivity| |].
  - apply Forall_forall. intros r Hin. apply filter_In in Hin as [Hin Hr].
    rewrite Forall_forall in Hold. destruct (Hold r Hin Hr) as [v [h [Hv Hh]]].
    exists h. destruct r; try discriminate Hv. cbn in *. rewrite Hv. exact Hh.
  - destruct rec; try discriminate Hd. cbn in *. rewrite Hd. exact He.
Qed.

Lemma nightly_totals_old_record_raises_witness :
  nightly_totals
    (JList ([] ++ JDict [("type", JStr "long_sleep"); ("total_sleep_duration", JNull)]
               :: eight_nights))
    = Raise TypeError.
Proof.
  apply (nightly_totals_old_record_raises [] eight_nights _ JNull TypeError);
    [constructor | reflexivity | reflexivity | reflexivity].
Defined.

(** X4: a mapping or a string in the place of the list of records is
    iterated, over its keys or its characters, none of which qualifies: the
    series is empty and nothing is raised. *)
Theorem nightly_totals_of_mapping_or_string
    (kv : list (string * json)) (s : string) :
  nightly_totals (JDict kv) = Ok [] /\ nightly_totals (JStr s) = Ok [].
Proof.
  unfold nightly_totals. cbn [py_iter rbind]. split.
  - replace (filter qualifies (map (fun p => JStr (fst p)) kv)) with (@nil json);
      [reflexivity|].
    induction kv as [|p kv IH]; [reflexivity | exact IH].
  - replace (filter qualifies (chars s)) with (@nil json); [reflexivity|].
    induction s as [|c s IH]; [reflexivity | exact IH].
Qed.

(** ** The value and the thresholds of the trigger *)

(** X5: over eight nights [should_trigger] returns [True] when the last
    night is below [min_hours]; otherwise it returns the percent change
    itself, a number and not a bool, when that is above [deviation_pct], and
    [False] when it is not. *)
Theorem should_trigger_value (hours : list float) (d m : float) :
  List.length hours = 8%nat ->
  exists last baseline pct,
    trigger_locals hours = Ok (last, baseline, pct) /\
    should_trigger hours d m
      = Ok (if (last <? m)%float then PBool true
            else if py_gt pct d then pct else PBool false).
Proof.
  intros Hlen.
  destruct (trigger_locals_ok hours) as [last [b [_ [_ Hloc]]]]; [lia|].
  eexists last, b, _. split; [exact Hloc|].
  rewrite should_trigger_locals, Hlen, Hloc. cbn [Nat.ltb Nat.leb rbind].
  unfold py_or, py_and. cbn [obj_truthy].
  destruct (last <? m)%float; [reflexivity|]. destruct (py_gt _ d); reflexivity.
Qed.

Lemma should_trigger_value_witness :
  exists last baseline pct,
    trigger_locals (seven 7 ++ [9.5%float]) = Ok (last, baseline, pct) /\
    should_trigger (seven 7 ++ [9.5%float]) 25 4
      = Ok (if (last <? 4)%float then PBool true
            else if py_gt pct 25 then pct else PBool false).
Proof. apply should_trigger_value. reflexivity. Defined.

Lemma SFltb_leb_trans (x y z : spec_float) :
  SFltb x y = true -> SFleb y z = true -> SFltb x z = true.
Proof.
  unfold SFltb, SFleb.
  destruct x as [sx|sx| |sx mx ex], y as [sy|sy| |sy my ey], z as [sz|sz| |sz mz ez];
    cbn; try discriminate; try reflexivity;
    repeat match goal with s : bool |- _ => destruct s end;
    cbn; try discriminate; try reflexivity;
    rewrite ?Pos.compare_cont_spec; cbn [Pos.switch_Eq];
    repeat match goal with
           | |- context [Z.compare ?a ?b] => destruct (Z.compare_spec a b)
           | |- context [Pos.compare ?a ?b] => destruct (Pos.compare_spec a b)
           end; cbn; try discriminate; try reflexivity; intros; exfalso; lia.
Qed.

Lemma SFleb_ltb_trans (x y z : spec_float) :
  SFleb x y = true -> SFltb y z = true -> SFltb x z = true.
Proof.
  unfold SFltb, SFleb.
  destruct x as [sx|sx| |sx mx ex], y as [sy|sy| |sy my ey], z as [sz|sz| |sz mz ez];
    cbn; try discriminate; try reflexivity;
    repeat match goal with s : bool |- _ => destruct s end;
    cbn; try discriminate; try reflexivity;
    rewrite ?Pos.compare_cont_spec; cbn [Pos.switch_Eq];
    repeat match goal with
           | |- context [Z.compare ?a ?b] => destruct (Z.compare_spec a b)
           | |- context [Pos.compare ?a ?b] => destruct (Pos.compare_spec a b)
           end; cbn; try discriminate; try reflexivity; intros; exfalso; lia.
Qed.

(** X6: a decision to trigger survives a higher [min_hours] and a lower
    [deviation_pct]: loosening either threshold never turns a trigger off. *)
Theorem should_trigger_threshold_monotone
    (hours : list float) (d d' m m' : float) (v : pyobj) :
  List.length hours = 8%nat ->
  (m <=? m')%float = true ->
  (d' <=? d)%float = true ->
  should_trigger hours d m = Ok v ->
  obj_truthy v = true ->
  exists v', should_trigger hours d' m' = Ok v' /\ obj_truthy v' = true.
Proof.
  intros Hlen Hm Hd Hv Ht.
  destruct (trigger_locals_ok hours) as [last [b [_ [_ Hloc]]]]; [lia|].
  rewrite should_trigger_locals, Hlen, Hloc in Hv |- *.
  cbn [Nat.ltb Nat.leb rbind] in *. injection Hv as <-.
  eexists. split; [reflexivity|]. rewrite truthy_or_and in *.
  apply orb_true_iff in Ht as [Ht|Ht]; apply orb_true_iff.
  - left. rewrite ltb_spec in *. rewrite leb_spec in Hm.
    eapply SFltb_leb_trans; eassumption.
  - right. destruct (b =? 0)%float.
    { cbn [obj_truthy Z.eqb negb] in Ht. rewrite andb_false_r in Ht. discriminate Ht. }
    cbn [py_gt obj_truthy] in *. apply andb_true_iff in Ht as [Hgt Hnz].
    rewrite Hnz, andb_true_r. rewrite ltb_spec in *. rewrite leb_spec in Hd.
    eapply SFleb_ltb_trans; eassumption.
Qed.

Lemma should_trigger_threshold_monotone_witness :
  exists v', should_trigger (seven 7 ++ [9.5%float]) 20 5 = Ok v' /\ obj_truthy v' = true.
Proof.
  apply (should_trigger_threshold_monotone (seven 7 ++ [9.5%float]) 25 20 4 5
           (PFloat (abs (9.5 - 7) / 7 * 100)));
    reflexivity.
Defined.

(** ** Sorting what is sorted *)

Lemma sort_by_day_of_sorted (l : list (string * json)) :
  Sorted by_day l -> sort_by_day l = l.
Proof.
  induction 1 as [|x l Hl IH Hx]; [reflexivity|].
  cbn [sort_by_day fold_right]. fold (sort_by_day l). rewrite IH.
  destruct Hx as [|y l Hxy]; [reflexivity|]. cbn. unfold by_day in Hxy.
  rewrite Hxy. reflexivity.
Qed.

(** X7: records that the provider returns already ordered by day come back
    from the sort in the order received. *)
Theorem sorted_by_day_keeps_sorted (w : env) (items : list json) :
  Forall dated items ->
  Sorted day_le items ->
  sorted_by_day w (JList items) = Ok items.
Proof.
  intros Hd Hs. destruct (keyed_dated items Hd) as [keys [kl [Hk [Hl [Hm HF]]]]].
  unfold sorted_by_day. cbn [py_iter rbind]. rewrite Hk. cbn [rbind]. rewrite Hl.
  rewrite sort_by_day_of_sorted; [rewrite Hm; reflexivity|].
  clear Hk Hl Hd. subst items. induction kl as [|p kl IH]; [constructor|].
  inversion Hs as [|? ? Hs' Hp]; subst. inversion HF as [|? ? Hp0 HF']; subst.
  constructor; [apply IH; assumption|].
  destruct kl as [|q kl]; constructor.
  inversion Hp as [|? ? Hpq]; subst. inversion HF' as [|? ? Hq0 _]; subst.
  unfold day_le in Hpq. rewrite Hp0, Hq0 in Hpq. exact Hpq.
Qed.

Lemma sorted_by_day_keeps_sorted_witness :
  sorted_by_day nowhere (JList five_nights) = Ok five_nights.
Proof.
  apply sorted_by_day_keeps_sorted.
  - repeat constructor; eexists; reflexivity.
  - repeat constructor.
Defined.

(** ** Footprints of the effects *)

Lemma emits_ret {A} (P : event -> Prop) (a : A) : emits P (ret a).
Proof. intros s. exists [], 0%nat. rewrite after_nothing. split; [reflexivity | constructor]. Qed.

Lemma emits_lift {A} (P : event -> Prop) (r : result A) : emits P (lift r).
Proof. intros s. exists [], 0%nat. rewrite after_nothing. split; [reflexivity | constructor]. Qed.

Lemma emits_emit (P : event -> Prop) (e : event) : P e -> emits P (emit e).
Proof. intros H s. exists [e], 0%nat. split; [reflexivity | repeat constructor; exact H]. Qed.

Lemma emits_now (P : event -> Prop) (w : env) : emits P (now w).
Proof. intros s. exists [], 1%nat. rewrite now_after. split; [reflexivity | constructor]. Qed.

Lemma emits_bind {A B} (P : event -> Prop) (m : io A) (k : A -> io B) :
  emits P m -> (forall a, emits P (k a)) -> emits P (bind m k).
Proof.
  intros Hm Hk s. destruct (Hm s) as [e1 [n1 [E1 F1]]]. unfold bind.
  destruct (m s) as [[a|e] s1]; cbn [snd] in *.
  - destruct (Hk a s1) as [e2 [n2 [E2 F2]]].
    exists (e1 ++ e2), (n2 + n1)%nat. rewrite E2, E1, after_after.
    split; [reflexivity | apply Forall_app; auto].
  - exists e1, n1. auto.
Qed.

Lemma emits_for_each {A} (P : event -> Prop) (l : list A) (body : A -> io unit) :
  (forall x, emits P (body x)) -> emits P (for_each l body).
Proof.
  intros H. induction l as [|x l IH]; cbn.
  - apply emits_ret.
  - apply emits_bind; [apply H | intros _; exact IH].
Qed.

Ltac footprint :=
  repeat match goal with
         | |- emits _ (ret _) => apply emits_ret
         | |- emits _ (lift _) => apply emits_lift
         | |- emits _ (now _) => apply emits_now
         | |- emits _ (print _) => unfold print
         | |- emits _ (emit _) => apply emits_emit; solve [auto]
         | |- emits _ (bind _ _) => apply emits_bind; [|intros ?]
         end.

Lemma emits_load_config (P : event -> Prop) (w : env) (path : string) :
  P (Print MsgNoConfig) -> P (Open path) -> emits P (load_config w path).
Proof.
  intros H1 H2. unfold load_config, print. destruct (files w path); footprint.
Qed.

Lemma emits_fetch (P : event -> Prop) (w : env) (token : json) (days : Z) :
  P (Print MsgOffline) -> P (Open SAMPLE_JSON) ->
  (forall t a b, P (Get OURA_SLEEP_URL t a b)) ->
  emits P (fetch_sleep_json w token days).
Proof.
  intros H1 H2 H3 s. destruct (fetch_cases w token days s) as [E | [E | [t Ht]]].
  - rewrite E. eexists _, _. split; [reflexivity | repeat constructor; assumption].
  - rewrite E. exists [], 0%nat. rewrite after_nothing. split; [reflexivity | constructor].
  - rewrite (fetch_live w token t days s Ht). eexists _, _.
    split; [reflexivity | repeat constructor; apply H3].
Qed.

Lemma emits_send (P : event -> Prop) (w : env) (cfg : json) (patient_id : string)
    (dry : bool) :
  P (Print MsgDryEmail) -> P (Print MsgDrySms) ->
  (dry = false ->
   P (Print MsgSendEmail) /\ P (Print MsgSendSms) /\ forall u t p, P (Post u t p)) ->
  emits P (send_qualtrics_survey w cfg patient_id dry).
Proof.
  intros H1 H2 H3. unfold send_qualtrics_survey, print.
  destruct dry.
  - repeat (footprint; cbv zeta;
            try match goal with
                | |- emits _ (if (if ?c then _ else _) then _ else _) => destruct c
                | |- emits _ (if ?b then _ else _) => destruct b
                end).
  - destruct (H3 eq_refl) as [H4 [H5 H6]].
    repeat (footprint; cbv zeta;
            try match goal with
                | |- emits _ (if (if ?c then _ else _) then _ else _) => destruct c
                | |- emits _ (if ?b then _ else _) => destruct b
                end).
Qed.

Lemma emits_weaken {A} (P Q : event -> Prop) (m : io A) :
  (forall e, P e -> Q e) -> emits P m -> emits Q m.
Proof.
  intros H Hm s. destruct (Hm s) as [ev [n [E F]]]. exists ev, n.
  split; [exact E | eapply Forall_impl; eassumption].
Qed.

(** The pipeline of a patient announces the patient first; the rest of what
    it does is the acquisition, its reports and the dispatch. *)
Lemma process_patient_footprint (P : event -> Prop) (w : env) (cfg : json)
    (dry : bool) (d m : float) (patient_id : string) (token : json) :
  (forall x, P (Print (MsgLastNight x))) ->
  (forall x, P (Print (MsgPrevious x))) ->
  (forall x, P (Print (MsgPctChange x))) ->
  P (Print MsgTrigger) -> P (Print MsgNoTrigger) ->
  emits P (fetch_sleep_json w token 8) ->
  emits P (send_qualtrics_survey w cfg patient_id dry) ->
  forall s, exists events n,
    snd (process_patient w cfg dry d m (patient_id, token) s)
      = after s (Print (MsgProcessing patient_id) :: events) n /\
    Forall P events.
Proof.
  intros H1 H2 H3 H4 H5 Hf Hs s. unfold process_patient.
  match goal with
  | |- context [bind (print ?x) ?k] => set (rest := k)
  end.
  assert (Hrest : emits P (rest tt)).
  { subst rest. cbv beta. unfold print.
    repeat (footprint;
            try match goal with
                | |- emits _ (fetch_sleep_json _ _ _) => exact Hf
                | |- emits _ (if ?b then _ else _) => destruct b
                | |- emits _ (send_qualtrics_survey _ _ _ _) => exact Hs
                end). }
  destruct (Hrest (after s [Print (MsgProcessing patient_id)] 0)) as [ev [n [E F]]].
  exists ev, n. split; [|exact F].
  change (snd (rest tt (after s [Print (MsgProcessing patient_id)] 0))
          = after s (Print (MsgProcessing patient_id) :: ev) n).
  rewrite E, after_after. f_equal. lia.
Qed.

Lemma process_patient_emits (P : event -> Prop) (w : env) (cfg : json)
    (dry : bool) (d m : float) (item : string * json) :
  (forall msg, match msg with
               | MsgProcessing _ | MsgLastNight _ | MsgPrevious _ | MsgPctChange _
               | MsgTrigger | MsgNoTrigger => P (Print msg)
               | _ => True
               end) ->
  emits P (fetch_sleep_json w (snd item) 8) ->
  emits P (send_qualtrics_survey w cfg (fst item) dry) ->
  emits P (process_patient w cfg dry d m item).
Proof.
  intros H Hf Hs s. destruct item as [patient_id token].
  destruct (process_patient_footprint P w cfg dry d m patient_id token
              (fun x => H (MsgLastNight x)) (fun x => H (MsgPrevious x))
              (fun x => H (MsgPctChange x)) (H MsgTrigger) (H MsgNoTrigger) Hf Hs s)
    as [ev [n [E F]]].
  eexists _, n. split; [exact E|]. constructor; [exact (H (MsgProcessing patient_id)) | exact F].
Qed.

Lemma filter_none {A} (f : A -> bool) (l : list A) :
  Forall (fun x => f x = false) l -> filter f l = [].
Proof.
  induction 1 as [|x l Hx _ IH]; [reflexivity|]. cbn. rewrite Hx. exact IH.
Qed.

(** ** The run as a whole *)

(** X8: with the dry flag set a run posts nothing to the survey provider,
    whatever the configuration, the tokens and the data are and however the
    run ends. *)
Theorem run_once_dry_never_posts (w : env) (config_path : string) (d m : float)
    (s : state) :
  filter is_post (trace (snd (run_once w config_path true d m s)))
    = filter is_post (trace s).
Proof.
  assert (H : emits (fun e => is_post e = false) (run_once w config_path true d m)).
  { unfold run_once. footprint.
    - apply emits_load_config; reflexivity.
    - apply emits_for_each. intros item. apply process_patient_emits.
      + intros []; reflexivity || exact I.
      + apply emits_fetch; reflexivity.
      + apply emits_send; try reflexivity. discriminate. }
  destruct (H s) as [ev [n [E F]]]. rewrite E. cbn [after trace].
  rewrite filter_app, (filter_none _ _ F). apply app_nil_r.
Qed.

Lemma send_forced_dry (w : env) (cfg : json) (patient_id : string) (dry : bool)
    (s : state) :
  placeholder_api_token cfg ->
  send_qualtrics_survey w cfg patient_id dry s
    = (Ok tt, after s [Print MsgDryEmail; Print MsgDrySms] 3).
Proof.
  intros [qt [tok [Hqt [Htok Hpre]]]].
  unfold send_qualtrics_survey, bind, lift. rewrite Hqt, Htok.
  cbn [py_startswith]. rewrite Hpre.
  destruct qt as [| | | | | |q]; try discriminate Htok.
  unfold after, print, emit. cbn. rewrite <- app_assoc. reflexivity.
Qed.

Lemma run_once_single (w : env) (config_path : string) (dry : bool) (d m : float)
    (cfg v : json) (item : string * json) (s s0 : state) :
  load_config w config_path s = (Ok cfg, s0) ->
  py_get cfg "oura_api_tokens" (JDict []) = Ok v ->
  (if truthy v then v else JDict [("sample", JStr DUMMY)]) = JDict [item] ->
  run_once w config_path dry d m s = process_patient w cfg dry d m item s0.
Proof.
  intros Hc Hv Ht. unfold run_once, bind, lift. rewrite Hc, Hv, Ht.
  cbn [py_items for_each]. unfold bind, ret.
  destruct (process_patient w cfg dry d m item s0) as [[[]|e] s1]; reflexivity.
Qed.

(** X9: a configuration without a table of tokens, or with one that is
    empty or null, is run for one patient named "sample" with the
    placeholder token. *)
Theorem run_once_default_patient (w : env) (config_path : string) (dry : bool)
    (d m : float) (cfg v : json) (s s0 : state) :
  load_config w config_path s = (Ok cfg, s0) ->
  py_get cfg "oura_api_tokens" (JDict []) = Ok v ->
  truthy v = false ->
  run_once w config_path dry d m s
    = process_patient w cfg dry d m ("sample", JStr DUMMY) s0.
Proof.
  intros Hc Hv Ht. apply (run_once_single w config_path dry d m cfg v); trivial.
  rewrite Ht. reflexivity.
Qed.

Lemma run_once_default_patient_witness :
  run_once (lab (Some (JDict [("oura_api_tokens", JNull)])) (sample_of eight_nights)
                (fun _ => []))
           CONFIG_FILE false 25 4 start
    = process_patient (lab (Some (JDict [("oura_api_tokens", JNull)]))
                           (sample_of eight_nights) (fun _ => []))
                      (JDict [("oura_api_tokens", JNull)]) false 25 4
                      ("sample", JStr DUMMY) (after start [Open CONFIG_FILE] 0).
Proof.
  apply (run_once_default_patient _ _ _ _ _ _ JNull); reflexivity.
Defined.

(** X10: without a config file a run sends no request and posts nothing,
    with or without the dry flag: it reads at most the bundled sample. *)
Theorem run_once_without_config (w : env) (config_path : string) (dry : bool)
    (d m : float) (s : state) :
  files w config_path = None ->
  filter (fun e => is_get e || is_post e) (trace (snd (run_once w config_path dry d m s)))
    = filter (fun e => is_get e || is_post e) (trace s).
Proof.
  intros Hfile.
  assert (Hc : load_config w config_path s = (Ok skeleton, after s [Print MsgNoConfig] 0)).
  { unfold load_config. rewrite Hfile. reflexivity. }
  rewrite (run_once_single w config_path dry d m skeleton
             (JDict [("sample", JStr DUMMY)]) ("sample", JStr DUMMY) s _ Hc eq_refl eq_refl).
  assert (H : emits (fun e => is_get e || is_post e = false)
                (process_patient w skeleton dry d m ("sample", JStr DUMMY))).
  { apply process_patient_emits.
    - intros []; reflexivity || exact I.
    - intros s1. rewrite fetch_offline by (right; right; exists DUMMY; split; reflexivity).
      eexists _, _. split; [reflexivity | repeat constructor].
    - intros s1. rewrite send_forced_dry.
      + eexists _, _. split; [reflexivity | repeat constructor].
      + exists (JDict [("api_token", JStr DUMMY)]), DUMMY. repeat split. }
  destruct (H (after s [Print MsgNoConfig] 0)) as [ev [n [E F]]]. rewrite E.
  cbn [after trace]. rewrite !filter_app, (filter_none _ _ F). cbn. rewrite !app_nil_r.
  reflexivity.
Qed.

Lemma run_once_without_config_witness :
  filter (fun e => is_get e || is_post e)
         (trace (snd (run_once (lab None (sample_of eight_nights) (fun _ => []))
                               CONFIG_FILE false 25 4 start)))
    = filter (fun e => is_get e || is_post e) (trace start).
Proof. apply run_once_without_config. reflexivity. Defined.

(** X11: a config file that cannot be read or parsed, or that does not hold
    a mapping, ends the run with that error before any patient is taken up:
    the trace gains only the opening of the file. *)
Theorem run_once_bad_config (w : env) (config_path : string) (dry : bool)
    (d m : float) (s : state) :
  (forall e, files w config_path = Some (Raise e) ->
             run_once w config_path dry d m s = (Raise e, after s [Open config_path] 0)) /\
  (forall cfg, files w config_path = Some (Ok cfg) -> is_dict cfg = false ->
               run_once w config_path dry d m s
                 = (Raise AttributeError, after s [Open config_path] 0)).
Proof.
  split.
  - intros e H. unfold run_once, load_config, bind, lift. rewrite H. reflexivity.
  - intros cfg H Hd. unfold run_once, load_config, bind, lift. rewrite H.
    rewrite emit_after. destruct cfg; try discriminate Hd; reflexivity.
Qed.

Lemma run_once_bad_config_witness :
  run_once (lab (Some (JList [])) None (fun _ => [])) CONFIG_FILE false 25 4 start
    = (Raise AttributeError, after start [Open CONFIG_FILE] 0).
Proof.
  apply (proj2 (run_once_bad_config (lab (Some (JList [])) None (fun _ => []))
                  CONFIG_FILE false 25 4 start) (JList [])); reflexivity.
Defined.

Lemma processed_app (a b : list event) : processed (a ++ b) = processed a ++ processed b.
Proof. apply flat_map_app. Qed.

Lemma processed_none (ev : list event) : Forall not_processing ev -> processed ev = [].
Proof.
  induction 1 as [|e ev He _ IH]; [reflexivity|].
  unfold processed in *. cbn [flat_map]. rewrite IH.
  destruct e as [[]| | |]; try reflexivity. contradiction.
Qed.

Lemma process_patient_announces (w : env) (cfg : json) (dry : bool) (d m : float)
    (patient_id : string) (token : json) (s : state) :
  processed (trace (snd (process_patient w cfg dry d m (patient_id, token) s)))
    = processed (trace s) ++ [patient_id].
Proof.
  destruct (process_patient_footprint not_processing w cfg dry d m patient_id token)
    with (s := s) as [ev [n [E F]]]; try (intros; exact I).
  - apply emits_fetch; try exact I. intros; exact I.
  - apply emits_send; try exact I. intros _. repeat split.
  - rewrite E. cbn [after trace]. rewrite processed_app.
    change (processed (Print (MsgProcessing patient_id) :: ev))
      with (patient_id :: processed ev).
    rewrite (processed_none _ F). reflexivity.
Qed.

Lemma for_each_processed (w : env) (cfg : json) (dry : bool) (d m : float)
    (items : list (string * json)) (s : state) :
  let r := for_each items (process_patient w cfg dry d m) s in
  exists k,
    (k <= List.length items)%nat /\
    (items <> [] -> 1 <= k)%nat /\
    processed (trace (snd r)) = processed (trace s) ++ firstn k (map fst items) /\
    (fst r = Ok tt -> k = List.length items).
Proof.
  revert s. induction items as [|[patient_id token] items IH]; intros s; cbn zeta.
  - exists 0%nat. cbn. rewrite app_nil_r. repeat split; auto. congruence.
  - cbn [for_each]. unfold bind.
    pose proof (process_patient_announces w cfg dry d m patient_id token s) as Ha.
    destruct (process_patient w cfg dry d m (patient_id, token) s) as [[[]|e] s1];
      cbn [snd] in Ha.
    + destruct (IH s1) as [k [Hk [_ [Hp Hok]]]]. exists (S k). cbn [List.length map firstn fst].
      split; [lia|]. split; [lia|]. split.
      * rewrite Hp, Ha, <- app_assoc. reflexivity.
      * intros H. f_equal. apply Hok. exact H.
    + exists 1%nat. cbn [List.length map firstn fst snd]. split; [lia|]. split; [lia|].
      split; [exact Ha | discriminate].
Qed.

(** X12: a run takes up the configured patients in the order of the
    configuration, each once, up to the first whose processing fails: the
    patients announced in the trace are a non-empty prefix of the configured
    ones, and all of them when the run ends without error. *)
Theorem run_once_in_order (w : env) (config_path : string) (dry : bool) (d m : float)
    (cfg : json) (kv : list (string * json)) (s s0 : state) :
  load_config w config_path s = (Ok cfg, s0) ->
  py_get cfg "oura_api_tokens" (JDict []) = Ok (JDict kv) ->
  kv <> [] ->
  let r := run_once w config_path dry d m s in
  exists k,
    (1 <= k <= List.length kv)%nat /\
    processed (trace (snd r)) = processed (trace s) ++ firstn k (map fst kv) /\
    (fst r = Ok tt -> k = List.length kv).
Proof.
  intros Hc Ht Hne r.
  assert (Hs0 : processed (trace s0) = processed (trace s)).
  { destruct (emits_load_config not_processing w config_path I I s) as [ev [n [E F]]].
    rewrite Hc in E. cbn [snd] in E. rewrite E. cbn [after trace].
    rewrite processed_app, (processed_none _ F). apply app_nil_r. }
  assert (Er : r = for_each kv (process_patient w cfg dry d m) s0).
  { subst r. unfold run_once, bind, lift. rewrite Hc, Ht.
    replace (truthy (JDict kv)) with true by (destruct kv; [contradiction | reflexivity]).
    reflexivity. }
  destruct (for_each_processed w cfg dry d m kv s0) as [k [Hk [Hk1 [Hp Hok]]]].
  exists k. rewrite Er, Hp, Hs0. split; [split; [apply Hk1, Hne | exact Hk]|].
  split; [reflexivity | exact Hok].
Qed.

Lemma run_once_in_order_witness :
  exists k,
    (1 <= k <= List.length [("A", JStr "tokA"); ("B", JStr "tokB")])%nat /\
    processed (trace (snd (run_once (lab (Some two_patients) None held_AB)
                                    CONFIG_FILE false 25 4 start)))
      = processed (trace start)
        ++ firstn k (map fst [("A", JStr "tokA"); ("B", JStr "tokB")]) /\
    (fst (run_once (lab (Some two_patients) None held_AB) CONFIG_FILE false 25 4 start)
       = Ok tt ->
     k = List.length [("A", JStr "tokA"); ("B", JStr "tokB")]).
Proof.
  apply (run_once_in_order (lab (Some two_patients) None held_AB) CONFIG_FILE false 25 4
           two_patients [("A", JStr "tokA"); ("B", JStr "tokB")] start
           (after start [Open CONFIG_FILE] 0));
    [reflexivity | reflexivity | discriminate].
Defined.

(** ** A patient to the end *)

Lemma nightly_totals_at_most_8 (recs : json) (hours : list float) :
  nightly_totals recs = Ok hours -> (List.length hours <= 8)%nat.
Proof.
  unfold nightly_totals. destruct (py_iter recs) as [items|e]; [|discriminate].
  cbn [rbind]. destruct (comprehension _ _) as [hs|e]; [|discriminate].
  cbn [rbind]. intros H. injection H as <-. rewrite py_tail_length. lia.
Qed.

(** X13: the pipeline of a patient ends without error only when the
    normalised series has exactly eight nights: any other outcome of the
    acquisition or of the normalisation is an error for that patient. *)
Theorem process_patient_completes_on_eight (w : env) (cfg : json) (dry : bool)
    (d m : float) (patient_id : string) (token : json) (s s' : state) :
  process_patient w cfg dry d m (patient_id, token) s = (Ok tt, s') ->
  exists recs s1 hours,
    fetch_sleep_json w token 8 (after s [Print (MsgProcessing patient_id)] 0)
      = (Ok recs, s1) /\
    nightly_totals recs = Ok hours /\
    List.length hours = 8%nat.
Proof.
  rewrite process_patient_steps.
  destruct (fetch_sleep_json w token 8 _) as [[recs|e] s1]; [|discriminate].
  destruct (nightly_totals recs) as [hours|e] eqn:Hn; [|discriminate].
  destruct (py_last hours) as [shown|e]; [|discriminate].
  destruct (report_locals hours) as [[[last b] pct]|e]; [|discriminate].
  destruct (should_trigger hours d m) as [v|e] eqn:Hv; [|discriminate].
  intros _. exists recs, s1, hours. split; [reflexivity|]. split; [exact Hn|].
  pose proof (nightly_totals_at_most_8 recs hours Hn).
  destruct (Nat.lt_ge_cases (List.length hours) 8) as [Hlt|Hge]; [|lia].
  rewrite (should_trigger_short hours d m Hlt) in Hv. discriminate.
Qed.

Lemma process_patient_completes_on_eight_witness :
  exists recs s1 hours,
    fetch_sleep_json (lab None (sample_of eight_nights) (fun _ => [])) (JStr DUMMY) 8
                     (after start [Print (MsgProcessing "sample")] 0)
      = (Ok recs, s1) /\
    nightly_totals recs = Ok hours /\
    List.length hours = 8%nat.
Proof.
  apply (process_patient_completes_on_eight
           (lab None (sample_of eight_nights) (fun _ => [])) skeleton false 25 4
           "sample" (JStr DUMMY) start
           (snd (process_patient (lab None (sample_of eight_nights) (fun _ => []))
                                 skeleton false 25 4 ("sample", JStr DUMMY) start))).
  vm_compute. reflexivity.
Defined.

(** ** The dispatcher with a real token *)

(** X14: with a real api token, no dry flag and a provider that accepts the
    posts, the dispatcher posts the email invitation and then the SMS
    invitation, each once, with the token and with the recipients the
    configuration gives for the patient. *)
Theorem send_qualtrics_survey_live (w : env) (cfg : json) (patient_id : string)
    (q : list (string * json)) (tok : string) (s : state) :
  py_get cfg "qualtrics" (JDict []) = Ok (JDict q) ->
  assoc "api_token" q = Some (JStr tok) ->
  String.prefix DUMMY tok = false ->
  (forall p, qualtrics w QUALTRICS_DIST_URL tok p = Ok tt) ->
  (forall p, qualtrics w QUALTRICS_SMS_URL tok p = Ok tt) ->
  exists email sms,
    send_qualtrics_survey w cfg patient_id false s
      = (Ok tt, after s [Print MsgSendEmail; Post QUALTRICS_DIST_URL tok email;
                         Print MsgSendSms; Post QUALTRICS_SMS_URL tok sms] 3) /\
    py_get email "recipients" JNull = Ok (recipients q patient_id) /\
    py_get sms "recipients" JNull = Ok (recipients q patient_id).
Proof.
  intros Hqt Htok Hpre Hmail Hsms. eexists _, _. split; [|split].
  - unfold send_qualtrics_survey, bind, lift. rewrite Hqt. cbn [py_get].
    rewrite Htok. cbn [py_startswith]. rewrite Hpre.
    unfold print, emit, now. cbn [text trace ticks]. rewrite Hmail, Hsms.
    unfold after. cbn [trace ticks]. rewrite <- !app_assoc. reflexivity.
  - reflexivity.
  - reflexivity.
Qed.

Lemma send_qualtrics_survey_live_witness :
  exists email sms,
    send_qualtrics_survey (lab None None (fun _ => []))
        (JDict [("qualtrics", JDict [("api_token", JStr "k3y"); ("p1", JStr "CID_1")])])
        "p1" false start
      = (Ok tt, after start [Print MsgSendEmail; Post QUALTRICS_DIST_URL "k3y" email;
                             Print MsgSendSms; Post QUALTRICS_SMS_URL "k3y" sms] 3) /\
    py_get email "recipients" JNull
      = Ok (recipients [("api_token", JStr "k3y"); ("p1", JStr "CID_1")] "p1") /\
    py_get sms "recipients" JNull
      = Ok (recipients [("api_token", JStr "k3y"); ("p1", JStr "CID_1")] "p1").
Proof.
  apply send_qualtrics_survey_live; reflexivity.
Defined.

(** X15: when the post of the email invitation fails, the dispatcher ends
    with that error and the SMS invitation is neither announced nor
    posted. *)
Theorem send_qualtrics_survey_email_fails (w : env) (cfg : json) (patient_id : string)
    (q : list (string * json)) (tok : string) (e : exn) (s : state) :
  py_get cfg "qualtrics" (JDict []) = Ok (JDict q) ->
  assoc "api_token" q = Some (JStr tok) ->
  String.prefix DUMMY tok = false ->
  (forall p, qualtrics w QUALTRICS_DIST_URL tok p = Raise e) ->
  exists email,
    send_qualtrics_survey w cfg patient_id false s
      = (Raise e, after s [Print MsgSendEmail; Post QUALTRICS_DIST_URL tok email] 2).
Proof.
  intros Hqt Htok Hpre Hmail. eexists.
  unfold send_qualtrics_survey, bind, lift. rewrite Hqt. cbn [py_get].
  rewrite Htok. cbn [py_startswith]. rewrite Hpre.
  unfold print, emit, now. cbn [text trace ticks]. rewrite Hmail.
  unfold after. cbn [trace ticks]. rewrite <- !app_assoc. reflexivity.
Qed.

Lemma send_qualtrics_survey_email_fails_witness :
  exists email,
    send_qualtrics_survey nowhere
        (JDict [("qualtrics", JDict [("api_token", JStr "k3y")])]) "p1" false start
      = (Raise RequestException,
         after start [Print MsgSendEmail; Post QUALTRICS_DIST_URL "k3y" email] 2).
Proof.
  apply (send_qualtrics_survey_email_fails nowhere _ "p1" [("api_token", JStr "k3y")]);
    reflexivity.
Defined.

(** X16: a survey block that is not a mapping, or an api token that is not
    a string, ends the dispatcher with an attribute error before anything is
    announced or posted. *)
Theorem send_qualtrics_survey_bad_token (w : env) (cfg qt : json)
    (patient_id : string) (dry : bool) (s : state) :
  py_get cfg "qualtrics" (JDict []) = Ok qt ->
  (forall tok, py_get qt "api_token" (JStr DUMMY) <> Ok (JStr tok)) ->
  send_qualtrics_survey w cfg patient_id dry s = (Raise AttributeError, s).
Proof.
  intros Hqt Hbad. unfold send_qualtrics_survey, bind, lift. rewrite Hqt.
  destruct (py_get qt "api_token" (JStr DUMMY)) as [[| | | |tok| |]|e] eqn:Ht;
    try reflexivity.
  - exfalso. exact (Hbad tok eq_refl).
  - destruct qt; cbn in Ht; congruence.
Qed.

Lemma send_qualtrics_survey_bad_token_witness :
  send_qualtrics_survey nowhere
      (JDict [("qualtrics", JDict [("api_token", JNull)])]) "p1" false start
    = (Raise AttributeError, start).
Proof.
  apply (send_qualtrics_survey_bad_token nowhere _ (JDict [("api_token", JNull)]));
    [reflexivity | discriminate].
Defined.

(** ** Acquisition at its edges *)

(** X17: a credential that is not a string is not looked at further when it
    is falsy (0, false, an empty list or mapping): the sample is read as for
    a placeholder; a truthy one ends the acquisition with an attribute error
    before anything is read or requested. *)
Theorem fetch_sleep_json_non_string (w : env) (token : json) (days : Z) (s : state) :
  (forall t, token <> JStr t) ->
  fetch_sleep_json w token days s
    = if truthy token then (Raise AttributeError, s)
      else (sample_data w, after s [Print MsgOffline; Open SAMPLE_JSON] 0).
Proof.
  intros Hns.
  assert (Hoff : truthy token = false ->
                 fetch_sleep_json w token days s
                   = (sample_data w, after s [Print MsgOffline; Open SAMPLE_JSON] 0)).
  { intros Hf. unfold fetch_sleep_json, bind, lift. rewrite Hf. cbn [negb].
    unfold sample_data, print, emit, after. cbn. rewrite <- app_assoc. cbn.
    destruct (files w SAMPLE_JSON) as [[doc|e]|]; reflexivity. }
  destruct (truthy token) eqn:Ht; [|apply Hoff; reflexivity].
  unfold fetch_sleep_json, bind, lift. rewrite Ht. cbn [negb].
  destruct token; try reflexivity. exfalso. eapply Hns. reflexivity.
Qed.

Lemma fetch_sleep_json_non_string_witness :
  fetch_sleep_json nowhere (JInt 12345) 8 start
    = if truthy (JInt 12345) then (Raise AttributeError, start)
      else (sample_data nowhere, after start [Print MsgOffline; Open SAMPLE_JSON] 0).
Proof. apply fetch_sleep_json_non_string. discriminate. Defined.

(** X18: an error status of the sleep provider ends the acquisition with the
    HTTP error of that status; the body of the response is not read. *)
Theorem fetch_sleep_json_http_error (w : env) (token : json) (t : string) (days : Z)
    (s : state) (resp : response) :
  real_token token t ->
  let day := today (clock w (ticks s)) in
  oura w t (day - days) day = Ok resp ->
  400 <= status_code resp < 600 ->
  fetch_sleep_json w token days s
    = (Raise (HTTPError (status_code resp)),
       after s [Get OURA_SLEEP_URL t (day - days) day] 1).
Proof.
  intros Ht day Hr Hst. rewrite (fetch_live w token t days s Ht). fold day.
  unfold live_data. rewrite Hr. cbn [rbind]. unfold raise_for_status.
  replace (400 <=? status_code resp) with true by (symmetry; apply Z.leb_le; lia).
  replace (status_code resp <? 600) with true by (symmetry; apply Z.ltb_lt; lia).
  reflexivity.
Qed.

Lemma fetch_sleep_json_http_error_witness :
  fetch_sleep_json refusing (JStr "t0k") 8 start
    = (Raise (HTTPError 401), after start [Get OURA_SLEEP_URL "t0k" (739000 - 8) 739000] 1).
Proof.
  apply (fetch_sleep_json_http_error refusing (JStr "t0k") "t0k" 8 start
           {| status_code := 401; body := Raise JSONDecodeError |}).
  - repeat split. discriminate.
  - reflexivity.
  - cbn. lia.
Defined.

(** X19: a response of the provider that is a mapping without "data" counts
    as no record at all, and the pipeline of that patient then ends with an
    index error on the last night of an empty series. *)
Theorem process_patient_no_data (w : env) (cfg : json) (dry : bool) (d m : float)
    (patient_id : string) (token : json) (t : string) (s : state) (resp : response)
    (kv : list (string * json)) :
  real_token token t ->
  let s0 := after s [Print (MsgProcessing patient_id)] 0 in
  let day := today (clock w (ticks s0)) in
  oura w t (day - 8) day = Ok resp ->
  raise_for_status resp = Ok tt ->
  body resp = Ok (JDict kv) ->
  assoc "data" kv = None ->
  fetch_sleep_json w token 8 s0
    = (Ok (JList []), after s0 [Get OURA_SLEEP_URL t (day - 8) day] 1) /\
  process_patient w cfg dry d m (patient_id, token) s
    = (Raise IndexError, after s0 [Get OURA_SLEEP_URL t (day - 8) day] 1).
Proof.
  intros Ht s0 day Hr Hs Hb Hd.
  assert (E : fetch_sleep_json w token 8 s0
              = (Ok (JList []), after s0 [Get OURA_SLEEP_URL t (day - 8) day] 1)).
  { rewrite (fetch_live w token t 8 s0 Ht). fold day. unfold live_data.
    rewrite Hr. cbn [rbind]. rewrite Hs. cbn [rbind]. rewrite Hb. cbn [rbind py_get].
    rewrite Hd. reflexivity. }
  split; [exact E|]. rewrite process_patient_steps. fold s0. rewrite E. reflexivity.
Qed.

Lemma process_patient_no_data_witness :
  fetch_sleep_json speechless (JStr "t0k") 8 (after start [Print (MsgProcessing "p1")] 0)
    = (Ok (JList []),
       after (after start [Print (MsgProcessing "p1")] 0)
             [Get OURA_SLEEP_URL "t0k" (739000 - 8) 739000] 1) /\
  process_patient speechless skeleton false 25 4 ("p1", JStr "t0k") start
    = (Raise IndexError,
       after (after start [Print (MsgProcessing "p1")] 0)
             [Get OURA_SLEEP_URL "t0k" (739000 - 8) 739000] 1).
Proof.
  apply (process_patient_no_data speechless skeleton false 25 4 "p1" (JStr "t0k") "t0k"
           start {| status_code := 200; body := Ok (JDict []) |} []);
    try reflexivity.
  repeat split. discriminate.
Defined.

(** X20: the bundled sample is read with [['data']], not with [get]: a
    sample file that is missing ends the acquisition with the error of the
    open, and one that is a mapping without "data" with a key error. *)
Theorem fetch_sleep_json_bad_sample (w : env) (token : json) (days : Z) (s : state) :
  placeholder token ->
  (files w SAMPLE_JSON = None ->
   fetch_sleep_json w token days s
     = (Raise OSError, after s [Print MsgOffline; Open SAMPLE_JSON] 0)) /\
  (forall kv, files w SAMPLE_JSON = Some (Ok (JDict kv)) -> assoc "data" kv = None ->
   fetch_sleep_json w token days s
     = (Raise (KeyError "data"), after s [Print MsgOffline; Open SAMPLE_JSON] 0)).
Proof.
  intros Hp. rewrite (fetch_offline w token days s Hp). unfold sample_data. split.
  - intros ->. reflexivity.
  - intros kv -> Hd. cbn. rewrite Hd. reflexivity.
Qed.

Lemma fetch_sleep_json_bad_sample_witness :
  fetch_sleep_json nowhere JNull 8 start
    = (Raise OSError, after start [Print MsgOffline; Open SAMPLE_JSON] 0).
Proof.
  apply (proj1 (fetch_sleep_json_bad_sample nowhere JNull 8 start (or_introl eq_refl))).
  reflexivity.
Defined.

(** X21: the sort takes the day of every record the provider returns, also
    of records that the normaliser would drop: one record without "day"
    ends the acquisition with a key error. *)
Theorem fetch_sleep_json_record_without_day (w : env) (token : json) (t : string)
    (days : Z) (s : state) (resp : response) (doc : json)
    (before later : list json) (kv : list (string * json)) :
  real_token token t ->
  let day := today (clock w (ticks s)) in
  oura w t (day - days) day = Ok resp ->
  raise_for_status resp = Ok tt ->
  body resp = Ok doc ->
  py_get doc "data" (JList []) = Ok (JList (before ++ JDict kv :: later)) ->
  Forall (fun r => exists k, py_getitem r "day" = Ok k) before ->
  assoc "day" kv = None ->
  fetch_sleep_json w token days s
    = (Raise (KeyError "day"), after s [Get OURA_SLEEP_URL t (day - days) day] 1).
Proof.
  intros Ht day Hr Hs Hb Hd Hbefore Hkv.
  rewrite (fetch_live w token t days s Ht). fold day. unfold live_data.
  rewrite Hr. cbn [rbind]. rewrite Hs. cbn [rbind]. rewrite Hb. cbn [rbind].
  rewrite Hd. cbn [rbind]. unfold sorted_by_day. cbn [py_iter rbind].
  rewrite (comprehension_raises _ before later (JDict kv) (KeyError "day") Hbefore);
    [reflexivity|].
  cbn. rewrite Hkv. reflexivity.
Qed.

Lemma fetch_sleep_json_record_without_day_witness :
  fetch_sleep_json careless (JStr "t0k") 8 start
    = (Raise (KeyError "day"),
       after start [Get OURA_SLEEP_URL "t0k" (739000 - 8) 739000] 1).
Proof.
  apply (fetch_sleep_json_record_without_day careless (JStr "t0k") "t0k" 8 start
           {| status_code := 200;
              body := Ok (JDict [("data", JList (five_nights ++ nap :: three_nights))]) |}
           (JDict [("data", JList (five_nights ++ nap :: three_nights))])
           five_nights three_nights
           [("type", JStr "rest"); ("total_sleep_duration", JInt 1200)]);
    try reflexivity.
  - repeat split. discriminate.
  - repeat constructor; eexists; reflexivity.
Defined.

Lemma process_patient_eight_nights_witness :
  exists last baseline pct v,
    trigger_locals [7; 7.5; 6; 8; 6.5; 7; 7; 3.5]%float = Ok (last, baseline, pct) /\
    should_trigger [7; 7.5; 6; 8; 6.5; 7; 7; 3.5]%float 25 4 = Ok v /\
    process_patient (lab None (sample_of eight_nights) (fun _ => [])) skeleton false 25 4
                    ("sample", JStr DUMMY) start
      = let s3 := after (after start [Print (MsgProcessing "sample"); Print MsgOffline;
                                      Open SAMPLE_JSON] 0)
                        [Print (MsgLastNight last);
                         Print (MsgPrevious (py_init [7; 7.5; 6; 8; 6.5; 7; 7; 3.5]%float));
                         Print (MsgPctChange pct)] 0 in
        if obj_truthy v
        then send_qualtrics_survey (lab None (sample_of eight_nights) (fun _ => []))
               skeleton "sample" false (after s3 [Print MsgTrigger] 0)
        else (Ok tt, after s3 [Print MsgNoTrigger] 0).
Proof.
  exact (process_patient_eight_nights
           (lab None (sample_of eight_nights) (fun _ => [])) skeleton false 25 4
           "sample" (JStr DUMMY) start
           (after start [Print (MsgProcessing "sample"); Print MsgOffline;
                         Open SAMPLE_JSON] 0)
           (JList eight_nights) [7; 7.5; 6; 8; 6.5; 7; 7; 3.5]%float
           eq_refl eq_refl eq_refl).
Defined.
